(** * neuvector-analyser: the support-bundle viewer backend (main.go)

    A shallow embedding of the two HTTP handlers of [main.go]
    ([getKeysHandler], [getDataHandler]) and of [decodePath], with the
    properties of the key catalog, the key decoder and the four shape
    projections.

    Conventions of the embedding.
    - A Go [string] is a sequence of bytes: [string] of the Standard Library.
    - The value [interface{}] that [json.Unmarshal] builds is the inductive
      [JSON]; a JSON object is a [map[string]interface{}], here a
      [gmap string JSON]; the [nil] interface is [JNull].
    - [url.Values] is a [map[string][]string], here [gmap string (list string)].
    - A handler either writes a response or panics ([exec]). *)

From Stdlib Require Import String Ascii NArith ZArith Lia.
From Stdlib Require Import Floats.SpecFloat.
From stdpp Require Import base option list strings gmap.

(** ** The [strings] package, on byte strings *)

Module strings.

(** [strings.HasPrefix(s, prefix)]. *)
Fixpoint HasPrefix (s prefix : string) : bool :=
  match prefix, s with
  | EmptyString, _ => true
  | String _ _, EmptyString => false
  | String p prefix', String c s' =>
      if Ascii.eqb c p then HasPrefix s' prefix' else false
  end.

(** [strings.Contains(s, substr)]: [substr] starts at some index of [s]. *)
Fixpoint Contains (s substr : string) : bool :=
  HasPrefix s substr ||
  match s with
  | EmptyString => false
  | String _ s' => Contains s' substr
  end.

(** The byte-wise case mapping of [strings.ToLower]: the letters ['A'..'Z']
    move to ['a'..'z'], every other byte is kept. (Go maps the runes of a
    string that is not pure ASCII with [unicode.ToLower]; the embedding
    covers the byte-wise path.) *)
Definition lowerByte (c : ascii) : ascii :=
  let n := N_of_ascii c in
  if ((65 <=? n) && (n <=? 90))%N then ascii_of_N (n + 32) else c.

Fixpoint ToLower (s : string) : string :=
  match s with
  | EmptyString => EmptyString
  | String c s' => String (lowerByte c) (ToLower s')
  end.

(** [s[n:]] for [n <= len(s)]. *)
Fixpoint drop (n : nat) (s : string) : string :=
  match n, s with
  | S n', String _ s' => drop n' s'
  | _, _ => s
  end.

(** [strings.TrimPrefix(s, prefix)]. *)
Definition TrimPrefix (s prefix : string) : string :=
  if HasPrefix s prefix then drop (String.length prefix) s else s.

(** [strings.ReplaceAll(s, old, new)] for a non-empty [old]: the
    non-overlapping instances of [old], found from the left, become [new].
    [skip] counts the bytes of an instance that was just replaced and that
    are still to be passed over. *)
Fixpoint replaceFrom (skip : nat) (s old new : string) : string :=
  match s with
  | EmptyString => EmptyString
  | String c s' =>
      match skip with
      | S k => replaceFrom k s' old new
      | O =>
          if HasPrefix s old
          then new +:+ replaceFrom (Nat.pred (String.length old)) s' old new
          else String c (replaceFrom O s' old new)
      end
  end.

Definition ReplaceAll (s old new : string) : string :=
  match old with
  | EmptyString => s (* not used by this program *)
  | _ => replaceFrom O s old new
  end.

End strings.

(** ** Values of the document *)

(** What [json.Unmarshal] stores in an [interface{}]. *)
#[warnings="-register-all"]
Inductive JSON : Type :=
| JNull
| JBool (b : bool)
| JNumber (f : spec_float)
| JString (s : string)
| JArray (l : list JSON)
| JObject (m : gmap string JSON).

(** The comma-ok type assertions [v.(T)]. *)
Definition asMap (v : JSON) : option (gmap string JSON) :=
  match v with JObject m => Some m | _ => None end.

Definition asArray (v : JSON) : option (list JSON) :=
  match v with JArray l => Some l | _ => None end.

Definition asString (v : JSON) : option string :=
  match v with JString s => Some s | _ => None end.

Definition asBool (v : JSON) : option bool :=
  match v with JBool b => Some b | _ => None end.

(** [m[k]] read as a value: a missing key gives the [nil] interface. *)
Definition index (m : gmap string JSON) (k : string) : JSON :=
  default JNull (m !! k).

(** [s, _ := m[k].(string)]: the zero value when the assertion fails. *)
Definition stringField (m : gmap string JSON) (k : string) : string :=
  default "" (asString (index m k)).

(** [b, _ := m[k].(bool)]. *)
Definition boolField (m : gmap string JSON) (k : string) : bool :=
  default false (asBool (index m k)).

(** ** Requests and responses *)

(** [url.Values.Get]: the first value of the key, or the empty string. *)
Definition Get (q : gmap string (list string)) (k : string) : string :=
  match q !! k with
  | Some (v :: _) => v
  | _ => ""
  end.

Record Request := {
  Path : string;                       (* r.URL.Path *)
  Query : gmap string (list string)    (* r.URL.Query() *)
}.

Definition StatusBadRequest : Z := 400.
Definition StatusNotFound : Z := 404.
Definition StatusInternalServerError : Z := 500.

(** What the handler writes: the JSON encoding of a value with status 200,
    or [http.Error(w, msg, code)]. *)
Inductive Response : Type :=
| Encoded (body : JSON)
| HttpError (msg : string) (code : Z).

(** A run of handler code: it ends normally or it panics (a failed
    single-value type assertion). After a panic nothing is written. *)
Inductive exec (A : Type) : Type :=
| Done (a : A)
| Panicked.
Arguments Done {A} a.
Arguments Panicked {A}.

Definition bind {A B} (x : exec A) (f : A → exec B) : exec B :=
  match x with
  | Done a => f a
  | Panicked => Panicked
  end.

Notation "'let!' x ':=' e1 'in' e2" := (bind e1 (fun x => e2))
  (at level 10, x name, e1 at level 100, e2 at level 200).

(** [v.(map[string]interface{})], the form that panics. *)
Definition assertMap (v : JSON) : exec (gmap string JSON) :=
  match v with
  | JObject m => Done m
  | _ => Panicked
  end.

(** ** [decodePath] *)

(** The [error] result; [None] is [nil]. *)
Definition error := option string.

Definition decodePath (path : string) : string * error :=
  let decoded := strings.ReplaceAll path "%2F" "/" in
  (decoded, None).

(** ** The loops of [getDataHandler] *)

(** [for _, x := range l { body }] over a loop state, for a body that may
    panic. *)
Fixpoint forEach {A S : Type} (body : S → A → exec S) (l : list A) (s : S)
  : exec S :=
  match l with
  | [] => Done s
  | x :: l' => let! s' := body s x in forEach body l' s'
  end.

(** One pass of the loop over [groups] (lines 157-204); the state is
    [filteredGroups], and a [continue] leaves it as it is. *)
Definition groupStep (filterZeroDriftStr filterDomain filterPolicyMode : string)
    (filteredGroups : list JSON) (groupIface : JSON) : exec (list JSON) :=
  let! group := assertMap groupIface in
  let groupName := stringField group "name" in
  if strings.HasPrefix groupName "_" then Done filteredGroups
  else
    let zeroDriftEnabled := boolField group "zero_drift_enabled" in
    if negb (String.eqb filterZeroDriftStr "") &&
       ((String.eqb filterZeroDriftStr "true" && negb zeroDriftEnabled) ||
        (String.eqb filterZeroDriftStr "false" && zeroDriftEnabled))
    then Done filteredGroups
    else
      let lowerGroupDomain := strings.ToLower (stringField group "domain") in
      if negb (String.eqb filterDomain "") &&
         negb (strings.Contains lowerGroupDomain (strings.ToLower filterDomain))
      then Done filteredGroups
      else
        let lowerGroupPolicyMode :=
          strings.ToLower (stringField group "policy_mode") in
        if negb (String.eqb filterPolicyMode "") &&
           negb (String.eqb lowerGroupPolicyMode filterPolicyMode)
        then Done filteredGroups
        else Done (filteredGroups ++ [JObject group]).

(** [versionToUse] of a platform element (lines 227-243). *)
Definition versionToUse (platformMap : gmap string JSON) : string :=
  match asString (index platformMap "platform") with
  | Some platformName =>
      if strings.Contains (strings.ToLower platformName) "openshift"
      then match asString (index platformMap "openshift_version") with
           | Some ov => ov
           | None => ""
           end
      else match asString (index platformMap "kube_version") with
           | Some kv => kv
           | None => ""
           end
  | None =>
      match asString (index platformMap "version") with
      | Some v => v
      | None => ""
      end
  end.

(** The record built for a platform element (lines 223-251). *)
Definition newPlatform (platformMap : gmap string JSON) : gmap string JSON :=
  let newPlatform : gmap string JSON := ∅ in
  let newPlatform := <["platform" := index platformMap "platform"]> newPlatform in
  let newPlatform := <["status" := index platformMap "status"]> newPlatform in
  let newPlatform := <["version" := JString (versionToUse platformMap)]> newPlatform in
  match platformMap !! "scan_summary" with
  | Some (JObject scanSummaryMap) =>
      let newPlatform := <["high" := index scanSummaryMap "high"]> newPlatform in
      let newPlatform := <["medium" := index scanSummaryMap "medium"]> newPlatform in
      <["scanned_at" := index scanSummaryMap "scanned_at"]> newPlatform
  | _ => newPlatform
  end.

(** One pass of the loop over [platforms] (lines 221-254). *)
Definition platformStep (formattedPlatforms : list (gmap string JSON))
    (platformIface : JSON) : list (gmap string JSON) :=
  match asMap platformIface with
  | Some platformMap => formattedPlatforms ++ [newPlatform platformMap]
  | None => formattedPlatforms
  end.

(** The record built for a domain element (lines 294-299). *)
Definition newDomain (domainMap : gmap string JSON) : gmap string JSON :=
  let newDomain : gmap string JSON := ∅ in
  let newDomain := <["name" := index domainMap "name"]> newDomain in
  let newDomain := <["workloads" := index domainMap "workloads"]> newDomain in
  let newDomain :=
    <["running_workloads" := index domainMap "running_workloads"]> newDomain in
  let newDomain := <["running_pods" := index domainMap "running_pods"]> newDomain in
  <["services" := index domainMap "services"]> newDomain.

(** One pass of the loop over [domains] (lines 276-303). *)
Definition domainStep (filterName : string)
    (formattedDomains : list (gmap string JSON)) (domainIface : JSON)
  : list (gmap string JSON) :=
  match asMap domainIface with
  | Some domainMap =>
      let domainName := stringField domainMap "name" in
      if strings.HasPrefix domainName "_" then formattedDomains
      else if negb (String.eqb filterName "") &&
              negb (strings.Contains (strings.ToLower domainName)
                                     (strings.ToLower filterName))
      then formattedDomains
      else formattedDomains ++ [newDomain domainMap]
  | None => formattedDomains
  end.

(** The record built for a host element (lines 336-350). *)
Definition newHost (hostMap : gmap string JSON) : gmap string JSON :=
  let newHost : gmap string JSON := ∅ in
  let newHost := <["name" := index hostMap "name"]> newHost in
  let newHost := <["state" := index hostMap "state"]> newHost in
  let newHost := <["os" := index hostMap "os"]> newHost in
  let newHost := <["platform" := index hostMap "platform"]> newHost in
  let newHost := <["containers" := index hostMap "containers"]> newHost in
  match hostMap !! "scan_summary" with
  | Some (JObject scanSummaryMap) =>
      let newHost := <["scan_status" := index scanSummaryMap "status"]> newHost in
      let newHost := <["high" := index scanSummaryMap "high"]> newHost in
      let newHost := <["medium" := index scanSummaryMap "medium"]> newHost in
      <["scanned_at" := index scanSummaryMap "scanned_at"]> newHost
  | _ => newHost
  end.

(** One pass of the loop over [hosts] (lines 325-352). *)
Definition hostStep (filterName : string)
    (formattedHosts : list (gmap string JSON)) (hostIface : JSON)
  : list (gmap string JSON) :=
  match asMap hostIface with
  | Some hostMap =>
      let hostName := stringField hostMap "name" in
      if negb (String.eqb filterName "") &&
         negb (strings.Contains (strings.ToLower hostName)
                                (strings.ToLower filterName))
      then formattedHosts
      else formattedHosts ++ [newHost hostMap]
  | None => formattedHosts
  end.

(** ** The handlers *)

(** The body [{"error": "<msg>"}] of the error responses. *)
Definition errorBody (msg : string) : string :=
  let q := String "034"%char EmptyString in
  "{" +:+ q +:+ "error" +:+ q +:+ ": " +:+ q +:+ msg +:+ q +:+ "}".

(** [neuvectorData == nil || len(neuvectorData) == 0]: a [nil] map is a map
    of length 0. *)
Definition notLoaded (neuvectorData : gmap string JSON) : bool :=
  bool_decide (size neuvectorData = 0).

(** The nested [if]s of the [/v1/group] branch (lines 147-215): [Some] when
    the branch reached its [return], [None] when it logged a shape error and
    left the [if] chain. *)
Definition groupBranch (val : JSON) (query : gmap string (list string))
  : option (exec Response) :=
  valMap ← asMap val;
  groupsIface ← valMap !! "groups";
  groups ← asArray groupsIface;
  let filterZeroDriftStr := Get query "zero_drift" in
  let filterDomain := Get query "domain" in
  let filterPolicyMode := strings.ToLower (Get query "policy_mode") in
  Some (let! filteredGroups :=
          forEach (groupStep filterZeroDriftStr filterDomain filterPolicyMode)
                  groups [] in
        Done (Encoded (JArray filteredGroups))).

(** Lines 217-265. *)
Definition platformBranch (val : JSON) : option (exec Response) :=
  valMap ← asMap val;
  platformsIface ← valMap !! "platforms";
  platforms ← asArray platformsIface;
  let formattedPlatforms := foldl platformStep [] platforms in
  Some (Done (Encoded (JArray (JObject <$> formattedPlatforms)))).

(** Lines 269-314. *)
Definition domainBranch (val : JSON) (query : gmap string (list string))
  : option (exec Response) :=
  valMap ← asMap val;
  domainsIface ← valMap !! "domains";
  domains ← asArray domainsIface;
  let filterName := Get query "domain" in
  let formattedDomains := foldl (domainStep filterName) [] domains in
  Some (Done (Encoded (JArray (JObject <$> formattedDomains)))).

(** Lines 318-364. *)
Definition hostBranch (val : JSON) (query : gmap string (list string))
  : option (exec Response) :=
  valMap ← asMap val;
  hostsIface ← valMap !! "hosts";
  hosts ← asArray hostsIface;
  let filterName := Get query "domain" in
  let formattedHosts := foldl (hostStep filterName) [] hosts in
  Some (Done (Encoded (JArray (JObject <$> formattedHosts)))).

(** The dispatch on the key (lines 145-370): what [getDataHandler] does with
    the value [val] found under [key]. *)
Definition project (key : string) (val : JSON)
    (query : gmap string (list string)) : exec Response :=
  if String.eqb key "/v1/group" then
    match groupBranch val query with
    | Some returned => returned
    | None => Done (Encoded val)
    end
  else if String.eqb key "/v1/scan/platform" then
    match platformBranch val with
    | Some returned => returned
    | None =>
        Done (HttpError (errorBody "Failed to process platform data.")
                        StatusInternalServerError)
    end
  else if String.eqb key "/v1/domain" then
    match domainBranch val query with
    | Some returned => returned
    | None =>
        Done (HttpError (errorBody "Failed to process domain data.")
                        StatusInternalServerError)
    end
  else if String.eqb key "/v1/host" then
    match hostBranch val query with
    | Some returned => returned
    | None =>
        Done (HttpError (errorBody "Failed to process host data.")
                        StatusInternalServerError)
    end
  else Done (Encoded val).

Definition getDataHandler (neuvectorData : gmap string JSON) (r : Request)
  : exec Response :=
  let key := strings.TrimPrefix (Path r) "/api/data/" in
  let '(key, err) := decodePath key in
  match err with
  | Some e =>
      Done (HttpError (errorBody ("Invalid key path: " +:+ e)) StatusBadRequest)
  | None =>
      if notLoaded neuvectorData
      then Done (HttpError (errorBody "Data not loaded.")
                           StatusInternalServerError)
      else
        match neuvectorData !! key with
        | None =>
            Done (HttpError (errorBody ("Key '" +:+ key +:+ "' not found."))
                            StatusNotFound)
        | Some val => project key val (Query r)
        end
  end.

(** [getKeysHandler]. The order in which Go ranges over a map is not
    specified; [allKeys] is taken in the order of [map_to_list], and the
    properties below speak of membership only. *)
Definition getKeysHandler (neuvectorData : gmap string JSON) (r : Request)
  : Response :=
  if notLoaded neuvectorData
  then HttpError (errorBody "Data not loaded.") StatusInternalServerError
  else
    let allKeys := (map_to_list neuvectorData).*1 in
    let query := Get (Query r) "q" in
    let allKeys :=
      if negb (String.eqb query "") then
        let lowerQuery := strings.ToLower query in
        filter (λ key, strings.Contains (strings.ToLower key) lowerQuery = true)
               allKeys
      else allKeys in
    Encoded (JArray (JString <$> allKeys)).

(** A request addresses [key] when its path, with the route prefix removed and
    decoded, is [key] (lines 124-125). *)
Definition decoded (path : string) : string := fst (decodePath path).

Definition addresses (r : Request) (key : string) : Prop :=
  decoded (strings.TrimPrefix (Path r) "/api/data/") = key.

(** The document holds, under [key], a mapping whose field [field] is the
    array [elems]: the shape the four projections expect. *)
Definition shaped (neuvectorData : gmap string JSON) (key field : string)
    (elems : list JSON) : Prop :=
  ∃ valMap, neuvectorData !! key = Some (JObject valMap) ∧
            valMap !! field = Some (JArray elems).

(** ** Vocabulary of the properties *)

Definition isMapping (v : JSON) : bool :=
  match v with JObject _ => true | _ => false end.

(** A group element passes every [continue] of the group loop, for the three
    filter strings the loop reads. *)
Definition groupKept (filterZeroDriftStr filterDomain filterPolicyMode : string)
    (group : gmap string JSON) : bool :=
  negb (strings.HasPrefix (stringField group "name") "_") &&
  negb (negb (String.eqb filterZeroDriftStr "") &&
        ((String.eqb filterZeroDriftStr "true" &&
          negb (boolField group "zero_drift_enabled")) ||
         (String.eqb filterZeroDriftStr "false" &&
          boolField group "zero_drift_enabled"))) &&
  negb (negb (String.eqb filterDomain "") &&
        negb (strings.Contains
                (strings.ToLower (stringField group "domain"))
                (strings.ToLower filterDomain))) &&
  negb (negb (String.eqb filterPolicyMode "") &&
        negb (String.eqb (strings.ToLower (stringField group "policy_mode"))
                         filterPolicyMode)).

Definition groupKeptElem (filterZeroDriftStr filterDomain filterPolicyMode : string)
    (v : JSON) : bool :=
  match v with
  | JObject group =>
      groupKept filterZeroDriftStr filterDomain filterPolicyMode group
  | _ => false
  end.

(** A domain element passes both [continue]s of the domain loop. *)
Definition domainKept (filterName : string) (domainMap : gmap string JSON)
  : bool :=
  negb (strings.HasPrefix (stringField domainMap "name") "_") &&
  negb (negb (String.eqb filterName "") &&
        negb (strings.Contains (strings.ToLower (stringField domainMap "name"))
                               (strings.ToLower filterName))).

(** A host element passes the [continue] of the host loop. *)
Definition hostKept (filterName : string) (hostMap : gmap string JSON) : bool :=
  negb (negb (String.eqb filterName "") &&
        negb (strings.Contains (strings.ToLower (stringField hostMap "name"))
                               (strings.ToLower filterName))).

(** The second query has every active group filter of the first, with the
    same value; it may have more. *)
Definition addsFilters (q1 q2 : gmap string (list string)) : Prop :=
  ∀ k, k ∈ ["zero_drift"; "domain"; "policy_mode"] →
       Get q1 k = "" ∨ Get q1 k = Get q2 k.

(** ** Documents and requests of the examples *)

(** One group in mode ["Monitor"]. *)
Definition monitorGroup : gmap string JSON :=
  {[ "name" := JString "g1"; "policy_mode" := JString "Monitor" ]}.

Definition monitorData : gmap string JSON :=
  {[ "/v1/group" := JObject {[ "groups" := JArray [JObject monitorGroup] ]} ]}.

Definition policyRequest (mode : string) : Request :=
  {| Path := "/api/data/%2Fv1%2Fgroup";
     Query := {[ "policy_mode" := [mode] ]} |}.

Definition twoGroups : gmap string JSON :=
  {[ "/v1/group" := JObject {[ "groups" := JArray [
       JObject {[ "name" := JString "g1"; "domain" := JString "prod";
                  "zero_drift_enabled" := JBool true ]};
       JObject {[ "name" := JString "g2"; "domain" := JString "prod" ]} ] ]} ]}.

Definition sysElem : JSON :=
  JObject {[ "name" := JString "_sys"; "domain" := JString "prod" ]}.

Definition g1Elem : JSON :=
  JObject {[ "name" := JString "g1"; "domain" := JString "prod";
             "policy_mode" := JString "Monitor" ]}.

Definition scenarioData : gmap string JSON :=
  {[ "/v1/group" := JObject {[ "groups" := JArray [g1Elem; sysElem] ]};
     "/v1/domain" := JObject {[ "domains" := JArray [g1Elem; sysElem] ]};
     "/v1/host" := JObject {[ "hosts" := JArray [g1Elem; sysElem] ]} ]}.


Definition mixedArray : list JSON :=
  [JObject {[ "name" := JString "a" ]}; JString "stray";
   JObject {[ "name" := JString "b" ]}].

Definition mixedData : gmap string JSON :=
  {[ "/v1/group" := JObject {[ "groups" := JArray mixedArray ]};
     "/v1/host" := JObject {[ "hosts" := JArray mixedArray ]} ]}.

Definition platformsNotArray : gmap string JSON :=
  {[ "/v1/scan/platform" := JObject {[ "platforms" := JString "k8s" ]} ]}.

(** ** [getMapKeys] *)

(** Lines 380-386: the keys of a map, appended in the order of the range
    (taken, as in [getKeysHandler], in the order of [map_to_list]). *)
Definition getMapKeys (m : gmap string JSON) : list string :=
  foldl (λ keys (kv : string * JSON), keys ++ [kv.1]) [] (map_to_list m).

(** ** More vocabulary *)

(** The key a request is about (lines 124-125). *)
Definition requestKey (r : Request) : string :=
  decoded (strings.TrimPrefix (Path r) "/api/data/").


(** Two queries that the handlers cannot tell apart: the same [zero_drift],
    and [domain] and [policy_mode] equal up to the case of letters. *)
Definition sameFilters (q1 q2 : gmap string (list string)) : Prop :=
  Get q1 "zero_drift" = Get q2 "zero_drift" ∧
  strings.ToLower (Get q1 "domain") = strings.ToLower (Get q2 "domain") ∧
  strings.ToLower (Get q1 "policy_mode") = strings.ToLower (Get q2 "policy_mode").

(** A query with the single parameter [k], at the value it has in [q]. *)
Definition onlyParam (k : string) (q : gmap string (list string))
  : gmap string (list string) :=
  {[ k := [Get q k] ]}.

(** * Properties *)

(** ** Byte strings *)

Section string_facts.

Implicit Types s t p : string.

Lemma HasPrefix_nil s : strings.HasPrefix s "" = true.
Proof. by destruct s. Qed.

Lemma HasPrefix_cons c s d p :
  strings.HasPrefix (String c s) (String d p) =
  bool_decide (c = d) && strings.HasPrefix s p.
Proof.
  simpl. destruct (Ascii.eqb_spec c d); by case_bool_decide.
Qed.

(** [HasPrefix] is "begins with". *)
Lemma HasPrefix_spec s p :
  strings.HasPrefix s p = true ↔ ∃ t, s = p +:+ t.
Proof.
  revert s; induction p as [|d p IH]; intros s.
  - rewrite HasPrefix_nil. split; [by exists s | done].
  - destruct s as [|c s].
    + split; [done | by intros [t ?]].
    + rewrite HasPrefix_cons, andb_true_iff, bool_decide_eq_true, IH.
      split.
      * intros [-> [t ->]]. by exists t.
      * intros [t [= -> ->]]. eauto.
Qed.

Lemma Contains_nil s : strings.Contains s "" = true.
Proof. destruct s; simpl; by rewrite ?HasPrefix_nil. Qed.



End string_facts.

(** ** The key decoder *)

Section decoder.

Lemma decoded_eq s : decoded s = strings.replaceFrom 0 s "%2F" "/".
Proof. reflexivity. Qed.

Lemma replaceFrom_cons c s old new :
  strings.replaceFrom 0 (String c s) old new =
  if strings.HasPrefix (String c s) old
  then new +:+ strings.replaceFrom (Nat.pred (String.length old)) s old new
  else String c (strings.replaceFrom 0 s old new).
Proof. reflexivity. Qed.

Lemma replaceFrom_skip k c s old new :
  strings.replaceFrom (S k) (String c s) old new =
  strings.replaceFrom k s old new.
Proof. reflexivity. Qed.

Lemma dec_hit s : decoded ("%2F" +:+ s) = "/" +:+ decoded s.
Proof.
  rewrite !decoded_eq. change ("%2F" +:+ s) with (String "%" (String "2" (String "F" s))).
  rewrite replaceFrom_cons.
  replace (strings.HasPrefix _ "%2F") with true
    by (symmetry; apply HasPrefix_spec; by exists s).
  change (Nat.pred (String.length "%2F")) with 2.
  by rewrite !replaceFrom_skip.
Qed.

Lemma dec_miss c s :
  strings.HasPrefix (String c s) "%2F" = false →
  decoded (String c s) = String c (decoded s).
Proof. rewrite !decoded_eq. rewrite replaceFrom_cons. by intros ->. Qed.

Lemma dec_no_instance s : strings.Contains s "%2F" = false → decoded s = s.
Proof.
  induction s as [|c s IH]; [done|].
  cbn [strings.Contains]. intros [Hp Hc]%orb_false_iff.
  rewrite dec_miss by done. by rewrite IH.
Qed.

Lemma append_nil t : "" +:+ t = t.
Proof. reflexivity. Qed.

Lemma append_cons c s t : String c s +:+ t = String c (s +:+ t).
Proof. reflexivity. Qed.

Lemma append_assoc p u t : (p +:+ u) +:+ t = p +:+ (u +:+ t).
Proof.
  induction p as [|c p IH]; [done|].
  change (String c ((p +:+ u) +:+ t) = String c (p +:+ u +:+ t)).
  by rewrite IH.
Qed.

Lemma HasPrefix_app_l s t p :
  strings.HasPrefix s p = true → strings.HasPrefix (s +:+ t) p = true.
Proof.
  rewrite !HasPrefix_spec. intros [u ->]. exists (u +:+ t).
  apply append_assoc.
Qed.

Lemma dec_app_instance a b : decoded (a +:+ "%2F" +:+ b) = decoded a +:+ "/" +:+ decoded b.
Proof.
  remember (String.length a) as n eqn:Hn.
  revert a Hn. induction (lt_wf n) as [n _ IH]. intros a ->.
  destruct a as [|c a]; [apply dec_hit|].
  destruct (strings.HasPrefix (String c a) "%2F") eqn:Hp.
  - apply HasPrefix_spec in Hp as [t Ht].
    rewrite Ht, append_assoc, !dec_hit, !append_cons, !append_nil.
    f_equal. eapply IH; [|done].
    rewrite Ht, !append_cons, append_nil. cbn [String.length]. lia.
  - assert (strings.HasPrefix (String c a +:+ "%2F" +:+ b) "%2F" = false) as Hq.
    { destruct (strings.HasPrefix (String c a +:+ _) _) eqn:Hq; [|done].
      rewrite <-Hp. apply HasPrefix_spec in Hq as [t Ht].
      symmetry. apply HasPrefix_spec.
      destruct a as [|c1 [|c2 a]];
        rewrite ?append_cons, ?append_nil in Ht; simplify_eq.
      eexists. by rewrite !append_cons, append_nil. }
    rewrite (append_cons c a) in Hq |- *.
    rewrite !dec_miss, (append_cons c (decoded a)) by done.
    f_equal. eapply IH; [|done]. cbn [String.length]; lia.
Qed.

End decoder.

(** C7. The key decoder never fails: its error result is always [nil]. A
    segment without the three bytes [%2F] comes back unchanged, so no other
    percent-encoding is decoded; and around any instance of [%2F] the decoder
    works piecewise, putting [/] for the instance. Together the last two
    parts fix the result for every input: each [%2F] becomes [/]. *)
Theorem decodePath_total_only_encoded_slash (path : string) :
  snd (decodePath path) = None ∧
  (strings.Contains path "%2F" = false → fst (decodePath path) = path) ∧
  (∀ a b, path = a +:+ "%2F" +:+ b →
     fst (decodePath path) =
     fst (decodePath a) +:+ "/" +:+ fst (decodePath b)).
Proof.
  split; [reflexivity|]. split.
  - apply dec_no_instance.
  - intros a b ->. apply dec_app_instance.
Qed.

Lemma decodePath_total_only_encoded_slash_witness :
  snd (decodePath "%2Fv1%2Fgroup") = None ∧
  fst (decodePath "a%20b%2f") = "a%20b%2f" ∧
  fst (decodePath "%2Fv1%2Fgroup") = "/v1/group".
Proof.
  split; [|split].
  - apply (decodePath_total_only_encoded_slash "%2Fv1%2Fgroup").
  - apply (decodePath_total_only_encoded_slash "a%20b%2f"). reflexivity.
  - rewrite (proj2 (proj2 (decodePath_total_only_encoded_slash "%2Fv1%2Fgroup"))
               "%2Fv1" "group" eq_refl).
    reflexivity.
Defined.

(** ** The handlers: general facts *)

Section handler_facts.

Implicit Types (data : gmap string JSON) (r : Request) (val : JSON).
Implicit Types (query : gmap string (list string)).

Lemma notLoaded_false data key val :
  data !! key = Some val → notLoaded data = false.
Proof.
  intros Hk. unfold notLoaded. apply bool_decide_eq_false.
  intros ->%map_size_empty_inv. by rewrite lookup_empty in Hk.
Qed.

(** With the key found, the handler is the dispatch on the key. *)
Lemma getDataHandler_found data r key val :
  addresses r key → data !! key = Some val →
  getDataHandler data r = project key val (Query r).
Proof.
  unfold addresses, decoded, getDataHandler, decodePath. cbn [fst].
  intros -> Hk. by rewrite (notLoaded_false _ _ _ Hk), Hk.
Qed.

Lemma getDataHandler_not_found data r key :
  addresses r key → data ≠ ∅ → data !! key = None →
  getDataHandler data r =
  Done (HttpError (errorBody ("Key '" +:+ key +:+ "' not found."))
                  StatusNotFound).
Proof.
  unfold addresses, decoded, getDataHandler, decodePath, notLoaded.
  cbn [fst]. intros -> Hne ->. rewrite bool_decide_eq_false_2; [done|].
  by intros ?%map_size_empty_inv.
Qed.

Lemma getDataHandler_not_loaded r :
  getDataHandler ∅ r =
  Done (HttpError (errorBody "Data not loaded.") StatusInternalServerError).
Proof. reflexivity. Qed.

End handler_facts.

(** ** The group loop *)

Section group_loop.

Variables filterZeroDriftStr filterDomain filterPolicyMode : string.

Local Abbreviation kept :=
  (groupKept filterZeroDriftStr filterDomain filterPolicyMode).
Local Abbreviation keptElem :=
  (groupKeptElem filterZeroDriftStr filterDomain filterPolicyMode).
Local Abbreviation step := (groupStep filterZeroDriftStr filterDomain filterPolicyMode).

Lemma groupStep_mapping acc group :
  step acc (JObject group) =
  Done (if kept group then acc ++ [JObject group] else acc).
Proof.
  unfold groupStep, groupKept. cbn [assertMap bind].
  repeat match goal with
         | |- context [if ?b then Done acc else _] => destruct b; cbn; try done
         end.
Qed.

Lemma forEach_groupStep groups acc :
  forEach step groups acc =
  if forallb isMapping groups
  then Done (acc ++ filter (λ v, keptElem v = true) groups)
  else Panicked.
Proof.
  revert acc; induction groups as [|v groups IH]; intros acc.
  - cbn. by rewrite app_nil_r.
  - destruct v as [| | | | |group]; try done.
    cbn [forEach forallb isMapping andb]. rewrite groupStep_mapping.
    cbn [bind]. rewrite IH. destruct (forallb isMapping groups); [|done].
    rewrite filter_cons. cbn [groupKeptElem].
    destruct (groupKept _ _ _ group); [|done].
    rewrite decide_True by done. by rewrite <-app_assoc.
Qed.

End group_loop.

(** ** The loops that build records *)

Section record_loops.

Variable filterName : string.

Lemma foldl_platformStep platforms acc :
  foldl platformStep acc platforms =
  acc ++ (newPlatform <$> omap asMap platforms).
Proof.
  revert acc; induction platforms as [|v platforms IH]; intros acc; cbn.
  - by rewrite app_nil_r.
  - rewrite IH. unfold platformStep.
    destruct (asMap v); cbn; by rewrite <-?app_assoc.
Qed.

Lemma foldl_domainStep domains acc :
  foldl (domainStep filterName) acc domains =
  acc ++ (newDomain <$> filter (λ d, domainKept filterName d = true) (omap asMap domains)).
Proof.
  revert acc; induction domains as [|v domains IH]; intros acc; cbn.
  - by rewrite app_nil_r.
  - rewrite IH. unfold domainStep, domainKept.
    destruct (asMap v) as [d|]; cbn; [|done].
    destruct (strings.HasPrefix _ "_"); cbn; [done|].
    destruct (negb (String.eqb filterName "") && _); cbn; [done|].
    by rewrite <-app_assoc.
Qed.

Lemma foldl_hostStep hosts acc :
  foldl (hostStep filterName) acc hosts =
  acc ++ (newHost <$> filter (λ h, hostKept filterName h = true) (omap asMap hosts)).
Proof.
  revert acc; induction hosts as [|v hosts IH]; intros acc; cbn.
  - by rewrite app_nil_r.
  - rewrite IH. unfold hostStep, hostKept.
    destruct (asMap v) as [h|]; cbn; [|done].
    destruct (negb (String.eqb filterName "") && _); cbn; [done|].
    by rewrite <-app_assoc.
Qed.

End record_loops.

(** ** The four projections on a value of the expected shape *)

Section projections.

Implicit Types (valMap : gmap string JSON) (query : gmap string (list string)).

Lemma project_group valMap groups query :
  valMap !! "groups" = Some (JArray groups) →
  project "/v1/group" (JObject valMap) query =
  if forallb isMapping groups
  then Done (Encoded (JArray
         (filter (λ v, groupKeptElem (Get query "zero_drift")
                         (Get query "domain")
                         (strings.ToLower (Get query "policy_mode")) v = true)
                 groups)))
  else Panicked.
Proof.
  intros Hg. unfold project, groupBranch. cbn. rewrite Hg. cbn.
  rewrite forEach_groupStep. by destruct (forallb isMapping groups).
Qed.

Lemma project_platform valMap platforms query :
  valMap !! "platforms" = Some (JArray platforms) →
  project "/v1/scan/platform" (JObject valMap) query =
  Done (Encoded (JArray (JObject <$> (newPlatform <$> omap asMap platforms)))).
Proof.
  intros Hp. unfold project, platformBranch. cbn. rewrite Hp. cbn.
  by rewrite foldl_platformStep.
Qed.

Lemma project_domain valMap domains query :
  valMap !! "domains" = Some (JArray domains) →
  project "/v1/domain" (JObject valMap) query =
  Done (Encoded (JArray (JObject <$> (newDomain <$>
    filter (λ d, domainKept (Get query "domain") d = true)
           (omap asMap domains))))).
Proof.
  intros Hd. unfold project, domainBranch. cbn. rewrite Hd. cbn.
  by rewrite foldl_domainStep.
Qed.

Lemma project_host valMap hosts query :
  valMap !! "hosts" = Some (JArray hosts) →
  project "/v1/host" (JObject valMap) query =
  Done (Encoded (JArray (JObject <$> (newHost <$>
    filter (λ h, hostKept (Get query "domain") h = true)
           (omap asMap hosts))))).
Proof.
  intros Hh. unfold project, hostBranch. cbn. rewrite Hh. cbn.
  by rewrite foldl_hostStep.
Qed.

End projections.

(** ** Shape mismatch under the group key *)

(** Whenever the [/v1/group] branch leaves its [if] chain, the handler runs
    into the default encoding of the raw value. *)
Lemma project_group_fallthrough val query :
  groupBranch val query = None →
  project "/v1/group" val query = Done (Encoded val).
Proof. unfold project. cbn. by intros ->. Qed.

(** C1. With a value under ["/v1/group"] that is not a mapping, or a mapping
    without [groups], or with a [groups] that is not an array, the handler
    answers with status 200 and the raw value, where the specification asks
    for the 500 of the three other keys; the same values under ["/v1/scan/platform"],
    ["/v1/domain"] and ["/v1/host"] do give 500. *)
Theorem group_shape_mismatch_returns_raw_value :
  let r := {| Path := "/api/data/%2Fv1%2Fgroup"; Query := ∅ |} in
  let noGroups : JSON := JObject {[ "other" := JNull ]} in
  let notArray : JSON := JObject {[ "groups" := JString "x" ]} in
  getDataHandler {[ "/v1/group" := JString "oops" ]} r
    = Done (Encoded (JString "oops")) ∧
  getDataHandler {[ "/v1/group" := noGroups ]} r = Done (Encoded noGroups) ∧
  getDataHandler {[ "/v1/group" := notArray ]} r = Done (Encoded notArray) ∧
  getDataHandler {[ "/v1/scan/platform" := JString "oops" ]}
                 {| Path := "/api/data/%2Fv1%2Fscan%2Fplatform"; Query := ∅ |}
    = Done (HttpError (errorBody "Failed to process platform data.") 500) ∧
  getDataHandler {[ "/v1/domain" := JString "oops" ]}
                 {| Path := "/api/data/%2Fv1%2Fdomain"; Query := ∅ |}
    = Done (HttpError (errorBody "Failed to process domain data.") 500) ∧
  getDataHandler {[ "/v1/host" := JString "oops" ]}
                 {| Path := "/api/data/%2Fv1%2Fhost"; Query := ∅ |}
    = Done (HttpError (errorBody "Failed to process host data.") 500).
Proof. repeat split; vm_compute; reflexivity. Qed.

(** ** Pass-through of the other keys *)

(** C2. A key that is none of the four recognized ones and is present in the
    document is answered with its raw value and status 200, whatever the query
    parameters are. *)
Theorem unrecognized_key_passes_through
    (data : gmap string JSON) (r : Request) (key : string) (val : JSON) :
  addresses r key →
  data !! key = Some val →
  key ∉ ["/v1/group"; "/v1/scan/platform"; "/v1/domain"; "/v1/host"] →
  getDataHandler data r = Done (Encoded val) ∧
  ∀ query, project key val query = Done (Encoded val).
Proof.
  intros Hr Hk Hnot.
  assert (∀ query, project key val query = Done (Encoded val)) as Hp.
  { intros query. unfold project.
    repeat match goal with
           | |- context [String.eqb key ?k] =>
               destruct (String.eqb_spec key k) as [->|_];
               [exfalso; apply Hnot; set_solver|]
           end.
    done. }
  split; [|done]. by rewrite (getDataHandler_found _ _ _ _ Hr Hk).
Qed.

Lemma unrecognized_key_passes_through_witness :
  getDataHandler {[ "/v1/system/config" := JArray [JBool true; JNull] ]}
    {| Path := "/api/data/%2Fv1%2Fsystem%2Fconfig";
       Query := {[ "domain" := ["prod"]; "zero_drift" := ["true"] ]} |}
  = Done (Encoded (JArray [JBool true; JNull])).
Proof.
  refine (proj1 (unrecognized_key_passes_through _ _ "/v1/system/config" _ _ _ _)).
  - reflexivity.
  - reflexivity.
  - rewrite !not_elem_of_cons. repeat split; try discriminate.
    apply not_elem_of_nil.
Defined.

(** ** The key catalog *)



(** ** The group filters *)

Section group_filters.

Implicit Types (query : gmap string (list string)) (group : gmap string JSON).

Lemma Get_delete_eq query k : Get (delete k query) k = "".
Proof. unfold Get. by rewrite lookup_delete_eq. Qed.

Lemma Get_delete_ne query k k' : k ≠ k' → Get (delete k query) k' = Get query k'.
Proof. intros. unfold Get. by rewrite lookup_delete_ne. Qed.

Lemma groupKeptElem_mapping fz fd fp v :
  groupKeptElem fz fd fp v = true →
  ∃ group, v = JObject group ∧ groupKept fz fd fp group = true.
Proof. destruct v; try done. eauto. Qed.

Lemma groupKept_no_underscore fz fd fp group :
  groupKept fz fd fp group = true →
  strings.HasPrefix (stringField group "name") "_" = false.
Proof.
  unfold groupKept. rewrite !andb_true_iff, negb_true_iff. tauto.
Qed.


Lemma groupKept_mono q1 q2 group :
  addsFilters q1 q2 →
  groupKept (Get q2 "zero_drift") (Get q2 "domain")
            (strings.ToLower (Get q2 "policy_mode")) group = true →
  groupKept (Get q1 "zero_drift") (Get q1 "domain")
            (strings.ToLower (Get q1 "policy_mode")) group = true.
Proof.
  intros Hq. unfold groupKept. rewrite !andb_true_iff.
  intros [[[Hn Hz] Hd] Hp]. repeat split; [done|..].
  - destruct (Hq "zero_drift") as [->| ->]; [set_solver|done..].
  - destruct (Hq "domain") as [->| ->]; [set_solver|done..].
  - destruct (Hq "policy_mode") as [->| ->]; [set_solver|done..].
Qed.

End group_filters.



(** The group in mode ["Monitor"] is returned for
    the filters ["Monitor"] and ["MONITOR"], and not for ["monitoring"] nor
    for ["mon"], which a containment test would accept. *)
Example policy_mode_examples :
  getDataHandler monitorData (policyRequest "Monitor")
    = Done (Encoded (JArray [JObject monitorGroup])) ∧
  getDataHandler monitorData (policyRequest "MONITOR")
    = Done (Encoded (JArray [JObject monitorGroup])) ∧
  getDataHandler monitorData (policyRequest "monitoring")
    = Done (Encoded (JArray [])) ∧
  getDataHandler monitorData (policyRequest "mon")
    = Done (Encoded (JArray [])).
Proof. repeat split; vm_compute; reflexivity. Qed.

(** C4. Group filtering is monotonic. For two requests for the group list
    that differ only in that the second has more active filters (the shared
    ones with the same values), either both answers are the same (the errors,
    the panic, an unfiltered value), or both are lists and the second list is
    a sublist of the first, so every group of the second is in the first. *)
Theorem group_filtering_monotonic
    (data : gmap string JSON) (path : string)
    (q1 q2 : gmap string (list string)) :
  addresses {| Path := path; Query := q1 |} "/v1/group" →
  addsFilters q1 q2 →
  let resp1 := getDataHandler data {| Path := path; Query := q1 |} in
  let resp2 := getDataHandler data {| Path := path; Query := q2 |} in
  resp2 = resp1 ∨
  ∃ l1 l2, resp1 = Done (Encoded (JArray l1)) ∧
           resp2 = Done (Encoded (JArray l2)) ∧
           l2 `sublist_of` l1 ∧ (∀ v, v ∈ l2 → v ∈ l1).
Proof.
  intros Hr Hq resp1 resp2. subst resp1 resp2.
  destruct (decide (data = ∅)) as [->|Hne]; [by left|].
  destruct (data !! "/v1/group") as [val|] eqn:Hk; cycle 1.
  { left. by rewrite !(getDataHandler_not_found _ _ "/v1/group"). }
  rewrite (getDataHandler_found data {| Path := path; Query := q1 |} _ _ Hr Hk).
  rewrite (getDataHandler_found data {| Path := path; Query := q2 |} _ _ Hr Hk).
  cbn [Query].
  destruct (groupBranch val q1) as [returned|] eqn:Hb; cycle 1.
  { left. rewrite !project_group_fallthrough; [done..|].
    revert Hb. unfold groupBranch.
    destruct val as [| | | | |valMap]; try done. cbn.
    destruct (valMap !! "groups") as [[]|]; done. }
  destruct val as [| | | | |valMap]; try done.
  unfold groupBranch in Hb. cbn in Hb.
  destruct (valMap !! "groups") as [groupsIface|] eqn:Hg; [|done].
  destruct groupsIface as [| | | |groups|]; try done. clear Hb.
  rewrite !(project_group _ _ _ Hg).
  destruct (forallb isMapping groups); [right|by left].
  do 2 eexists. split; [done|]. split; [done|].
  assert (filter (λ v, groupKeptElem (Get q2 "zero_drift") (Get q2 "domain")
                         (strings.ToLower (Get q2 "policy_mode")) v = true)
            groups `sublist_of`
          filter (λ v, groupKeptElem (Get q1 "zero_drift") (Get q1 "domain")
                         (strings.ToLower (Get q1 "policy_mode")) v = true)
            groups) as Hsub.
  { rewrite <-(list_filter_filter_l _ (λ v, groupKeptElem (Get q1 "zero_drift")
        (Get q1 "domain") (strings.ToLower (Get q1 "policy_mode")) v = true)).
    - apply sublist_filter.
    - intros v (group & -> & Hkept)%groupKeptElem_mapping.
      by apply (groupKept_mono q1 q2). }
  split; [done|]. intros v Hv. by eapply elem_of_sublist.
Qed.

Lemma group_filtering_monotonic_witness :
  let q1 : gmap string (list string) := {[ "domain" := ["prod"] ]} in
  let q2 : gmap string (list string) :=
    {[ "domain" := ["prod"]; "zero_drift" := ["true"] ]} in
  let resp1 := getDataHandler twoGroups
                 {| Path := "/api/data/%2Fv1%2Fgroup"; Query := q1 |} in
  let resp2 := getDataHandler twoGroups
                 {| Path := "/api/data/%2Fv1%2Fgroup"; Query := q2 |} in
  resp2 = resp1 ∨
  ∃ l1 l2, resp1 = Done (Encoded (JArray l1)) ∧
           resp2 = Done (Encoded (JArray l2)) ∧
           l2 `sublist_of` l1 ∧ (∀ v, v ∈ l2 → v ∈ l1).
Proof.
  intros q1 q2.
  apply (group_filtering_monotonic twoGroups "/api/data/%2Fv1%2Fgroup" q1 q2).
  - reflexivity.
  - intros k Hk. rewrite !elem_of_cons, elem_of_nil in Hk.
    destruct Hk as [->|[->|[->|[]]]]; vm_compute; auto.
Defined.

(** ** Names that start with an underscore *)

Section record_fields.

Implicit Types m : gmap string JSON.

Lemma omap_asMap_elem (elems : list JSON) m :
  m ∈ omap asMap elems ↔ JObject m ∈ elems.
Proof.
  rewrite list_elem_of_omap. split.
  - intros (v & Hin & Hv). by destruct v; simplify_eq/=.
  - intros Hin. by exists (JObject m).
Qed.

Lemma omap_asMap_sublist (elems : list JSON) :
  (JObject <$> omap asMap elems) `sublist_of` elems.
Proof.
  induction elems as [|v elems IH]; [constructor|].
  destruct v; cbn [omap list_omap asMap fmap list_fmap];
    first [by apply sublist_cons | by apply sublist_skip].
Qed.

Lemma omap_asMap_mappings (elems : list JSON) :
  omap asMap (filter (λ v, isMapping v = true) elems) = omap asMap elems.
Proof.
  induction elems as [|v elems IH]; [done|].
  destruct v; rewrite ?filter_cons_True, ?filter_cons_False by done;
    cbn [omap list_omap asMap]; by rewrite ?IH.
Qed.

Lemma newDomain_name m : index (newDomain m) "name" = index m "name".
Proof.
  unfold newDomain, index at 1.
  by rewrite !lookup_insert_ne, lookup_insert_eq by done.
Qed.


End record_fields.

(** C5. In the answers for the group list and for the domain list, no entry
    has a name that starts with ["_"], whatever the query parameters are. A
    group entry is an element of [groups] as it is in the document; a domain
    entry is the record of an element of [domains], with that element's
    name. *)
Theorem underscore_names_never_listed
    (data : gmap string JSON) (r : Request) (elems : list JSON) :
  (addresses r "/v1/group" → shaped data "/v1/group" "groups" elems →
   getDataHandler data r = Panicked ∨
   ∃ out, getDataHandler data r = Done (Encoded (JArray out)) ∧
     ∀ v, v ∈ out →
       v ∈ elems ∧
       ∃ group, v = JObject group ∧
         strings.HasPrefix (stringField group "name") "_" = false) ∧
  (addresses r "/v1/domain" → shaped data "/v1/domain" "domains" elems →
   ∃ out, getDataHandler data r = Done (Encoded (JArray out)) ∧
     ∀ v, v ∈ out →
       ∃ domainMap, JObject domainMap ∈ elems ∧
         v = JObject (newDomain domainMap) ∧
         stringField (newDomain domainMap) "name" = stringField domainMap "name" ∧
         strings.HasPrefix (stringField domainMap "name") "_" = false).
Proof.
  split; intros Hr (valMap & Hk & Hf);
    rewrite (getDataHandler_found _ _ _ _ Hr Hk).
  - rewrite (project_group _ _ _ Hf).
    destruct (forallb isMapping elems); [right|by left].
    eexists; split; [done|].
    intros v [(group & -> & Hkept)%groupKeptElem_mapping Hin]%list_elem_of_filter.
    split; [done|]. exists group. split; [done|].
    by eapply groupKept_no_underscore.
  - rewrite (project_domain _ _ _ Hf). eexists; split; [done|].
    intros v (rec & -> & (d & -> & Hd)%list_elem_of_fmap)%list_elem_of_fmap.
    apply list_elem_of_filter in Hd as [Hkept Hin%omap_asMap_elem].
    exists d. split; [done|]. split; [done|]. split.
    + unfold stringField. by rewrite newDomain_name.
    + unfold domainKept in Hkept.
      apply andb_true_iff in Hkept as [Hn _]. by apply negb_true_iff in Hn.
Qed.

Lemma underscore_names_never_listed_witness :
  getDataHandler scenarioData
    {| Path := "/api/data/%2Fv1%2Fgroup"; Query := {[ "domain" := ["prod"] ]} |}
  = Done (Encoded (JArray [g1Elem])) ∧
  ∃ out,
    getDataHandler scenarioData
      {| Path := "/api/data/%2Fv1%2Fdomain"; Query := ∅ |}
    = Done (Encoded (JArray out)) ∧
    ∀ v, v ∈ out →
      ∃ domainMap, JObject domainMap ∈ [g1Elem; sysElem] ∧
        v = JObject (newDomain domainMap) ∧
        stringField (newDomain domainMap) "name" = stringField domainMap "name" ∧
        strings.HasPrefix (stringField domainMap "name") "_" = false.
Proof.
  split.
  - destruct (proj1 (underscore_names_never_listed scenarioData
        {| Path := "/api/data/%2Fv1%2Fgroup";
           Query := {[ "domain" := ["prod"] ]} |} [g1Elem; sysElem]))
      as [Hp|(out & Hout & _)].
    + reflexivity.
    + eexists. split; reflexivity.
    + vm_compute in Hp. discriminate.
    + vm_compute. reflexivity.
  - apply (proj2 (underscore_names_never_listed scenarioData
        {| Path := "/api/data/%2Fv1%2Fdomain"; Query := ∅ |}
        [g1Elem; sysElem])).
    + reflexivity.
    + eexists. split; reflexivity.
Defined.

(** ** The platform records *)



(** ** The host list *)



(** The asymmetry on one document: the element named ["_sys"] is in the host
    answer and in neither the group answer nor the domain answer. *)
Example underscore_asymmetry :
  let sys : gmap string JSON :=
    {[ "name" := JString "_sys"; "domain" := JString "prod" ]} in
  let g1 : gmap string JSON :=
    {[ "name" := JString "g1"; "domain" := JString "prod";
       "policy_mode" := JString "Monitor" ]} in
  getDataHandler scenarioData {| Path := "/api/data/%2Fv1%2Fhost"; Query := ∅ |}
    = Done (Encoded (JArray [JObject (newHost g1); JObject (newHost sys)])) ∧
  getDataHandler scenarioData {| Path := "/api/data/%2Fv1%2Fdomain"; Query := ∅ |}
    = Done (Encoded (JArray [JObject (newDomain g1)])) ∧
  getDataHandler scenarioData {| Path := "/api/data/%2Fv1%2Fgroup"; Query := ∅ |}
    = Done (Encoded (JArray [JObject g1])).
Proof. repeat split; vm_compute; reflexivity. Qed.

(** ** Elements that are not mappings *)

(** C10. With [groups] an array, an element that is not a mapping makes the
    group loop panic: the handler writes no response. The loops over
    [platforms], [domains] and [hosts] pass over such elements: the handler
    answers with a list, the very answer it gives when those elements are
    taken out of the array. *)
Theorem non_mapping_elements
    (data : gmap string JSON) (r : Request) (elems : list JSON) :
  (addresses r "/v1/group" → shaped data "/v1/group" "groups" elems →
   (∃ v, v ∈ elems ∧ asMap v = None) →
   getDataHandler data r = Panicked) ∧
  (∀ key field valMap,
     (key, field) ∈ [("/v1/scan/platform", "platforms");
                     ("/v1/domain", "domains"); ("/v1/host", "hosts")] →
     addresses r key →
     data !! key = Some (JObject valMap) →
     valMap !! field = Some (JArray elems) →
     (∃ out, getDataHandler data r = Done (Encoded (JArray out))) ∧
     getDataHandler data r =
     getDataHandler
       (<[key := JObject (<[field :=
                 JArray (filter (λ v, isMapping v = true) elems)]> valMap)]> data)
       r).
Proof.
  split.
  - intros Hr (valMap & Hk & Hf) (v & Hin & Hv).
    rewrite (getDataHandler_found _ _ _ _ Hr Hk), (project_group _ _ _ Hf).
    destruct (forallb isMapping elems) eqn:Hall; [|done].
    rewrite forallb_forall in Hall. apply list_elem_of_In, Hall in Hin.
    by destruct v.
  - intros key field valMap Hin Hr Hk Hf.
    rewrite (getDataHandler_found _ _ _ _ Hr Hk).
    rewrite (getDataHandler_found _ r key _ Hr (lookup_insert_eq _ _ _)).
    rewrite !elem_of_cons, elem_of_nil in Hin.
    destruct Hin as [[= -> ->]|[[= -> ->]|[[= -> ->]|[]]]].
    + rewrite (project_platform _ _ _ Hf).
      rewrite (project_platform _ _ _ (lookup_insert_eq _ _ _)).
      rewrite omap_asMap_mappings. eauto.
    + rewrite (project_domain _ _ _ Hf).
      rewrite (project_domain _ _ _ (lookup_insert_eq _ _ _)).
      rewrite omap_asMap_mappings. eauto.
    + rewrite (project_host _ _ _ Hf).
      rewrite (project_host _ _ _ (lookup_insert_eq _ _ _)).
      rewrite omap_asMap_mappings. eauto.
Qed.

Lemma non_mapping_elements_witness :
  getDataHandler mixedData {| Path := "/api/data/%2Fv1%2Fgroup"; Query := ∅ |}
    = Panicked ∧
  ∃ out,
    getDataHandler mixedData {| Path := "/api/data/%2Fv1%2Fhost"; Query := ∅ |}
    = Done (Encoded (JArray out)).
Proof.
  split.
  - apply (proj1 (non_mapping_elements mixedData
             {| Path := "/api/data/%2Fv1%2Fgroup"; Query := ∅ |} mixedArray)).
    + reflexivity.
    + eexists. split; reflexivity.
    + exists (JString "stray"). split; [|reflexivity].
      apply list_elem_of_further, list_elem_of_here.
  - refine (proj1 (proj2 (non_mapping_elements mixedData
             {| Path := "/api/data/%2Fv1%2Fhost"; Query := ∅ |} mixedArray)
             "/v1/host" "hosts" {[ "hosts" := JArray mixedArray ]} _ _ _ _)).
    + do 2 apply list_elem_of_further. apply list_elem_of_here.
    + reflexivity.
    + reflexivity.
    + reflexivity.
Defined.

(** On that document the host answer has the two records and leaves the
    stray string out. *)
Example stray_element_skipped :
  getDataHandler mixedData {| Path := "/api/data/%2Fv1%2Fhost"; Query := ∅ |}
  = Done (Encoded (JArray
      [JObject (newHost {[ "name" := JString "a" ]});
       JObject (newHost {[ "name" := JString "b" ]})])).
Proof. vm_compute. reflexivity. Qed.

(** * Further properties of the code *)

(** ** The key decoder *)

Section decoder_output.

Lemma decoded_cases s :
  (s = "" ∧ decoded s = "") ∨
  (∃ t, s = "%2F" +:+ t ∧ decoded s = "/" +:+ decoded t) ∨
  (∃ c t, s = String c t ∧ strings.HasPrefix s "%2F" = false ∧
          decoded s = String c (decoded t)).
Proof.
  destruct s as [|c s]; [by left|right].
  destruct (strings.HasPrefix (String c s) "%2F") eqn:Hp.
  - left. apply HasPrefix_spec in Hp as [t Ht]. exists t.
    split; [done|]. rewrite Ht. apply dec_hit.
  - right. exists c, s. split; [done|]. split; [done|]. by apply dec_miss.
Qed.

Lemma decoded_head_not_instance s : strings.HasPrefix (decoded s) "%2F" = false.
Proof.
  destruct (decoded_cases s) as [[_ ->]|[(t & _ & ->)|(c & t & -> & Hp & Hd)]];
    [done..|].
  rewrite Hd, HasPrefix_cons. rewrite HasPrefix_cons in Hp.
  case_bool_decide as Hc; [subst c|done]. cbn [andb] in *.
  destruct (decoded_cases t) as [[_ ->]|[(t' & _ & ->)|(c2 & t2 & -> & _ & ->)]];
    [done..|].
  rewrite HasPrefix_cons in Hp |- *.
  case_bool_decide as Hc2; [subst c2|done]. cbn [andb] in *.
  destruct (decoded_cases t2) as [[_ ->]|[(t' & _ & ->)|(c3 & t3 & -> & _ & ->)]];
    [done..|].
  rewrite HasPrefix_cons in Hp |- *.
  case_bool_decide as Hc3; [subst c3|done]. cbn [andb] in *.
  by rewrite HasPrefix_nil in Hp.
Qed.

Lemma decoded_no_instance s : strings.Contains (decoded s) "%2F" = false.
Proof.
  remember (String.length s) as n eqn:Hn.
  revert s Hn. induction (lt_wf n) as [n _ IH]. intros s ->.
  destruct (decoded_cases s) as [[_ ->]|[(t & -> & ->)|(c & t & -> & Hp & Hd)]].
  - done.
  - rewrite append_cons, append_nil. cbn [strings.Contains].
    rewrite HasPrefix_cons. cbn [andb orb bool_decide].
    rewrite bool_decide_eq_false_2 by done. cbn [andb orb].
    eapply IH; [|done]. rewrite !append_cons, append_nil.
    cbn [String.length]. lia.
  - pose proof (decoded_head_not_instance (String c t)) as Hh.
    rewrite Hd in Hh |- *. cbn [strings.Contains]. rewrite Hh. cbn [orb].
    eapply IH; [|done]. cbn [String.length]. lia.
Qed.

End decoder_output.

(** X1. What the key decoder returns never has the three bytes [%2F] in it.
    So decoding twice is decoding once, and the decoder leaves a segment as it
    is exactly when the segment has no [%2F]. *)
Theorem decodePath_output_has_no_encoded_slash (path : string) :
  strings.Contains (fst (decodePath path)) "%2F" = false ∧
  fst (decodePath (fst (decodePath path))) = fst (decodePath path) ∧
  (fst (decodePath path) = path ↔ strings.Contains path "%2F" = false).
Proof.
  pose proof (decoded_no_instance path) as Hfree. unfold decoded in Hfree.
  split; [done|]. split.
  - by apply dec_no_instance.
  - split; [by intros <-|apply dec_no_instance].
Qed.

(** ** Responses of [getDataHandler], case by case *)

Section responses.

Implicit Types (data : gmap string JSON) (r : Request) (val : JSON).
Implicit Types (query : gmap string (list string)).

Lemma notLoaded_iff data : notLoaded data = true ↔ data = ∅.
Proof.
  unfold notLoaded. rewrite bool_decide_eq_true. apply map_size_empty_iff.
Qed.

Lemma notLoaded_false_iff data : notLoaded data = false ↔ data ≠ ∅.
Proof.
  unfold notLoaded. rewrite bool_decide_eq_false.
  by rewrite map_size_empty_iff.
Qed.

(** The handler, by the three tests it makes before the dispatch. *)
Lemma getDataHandler_unfold data r :
  getDataHandler data r =
  if notLoaded data
  then Done (HttpError (errorBody "Data not loaded.") StatusInternalServerError)
  else match data !! requestKey r with
       | None =>
           Done (HttpError
                   (errorBody ("Key '" +:+ requestKey r +:+ "' not found."))
                   StatusNotFound)
       | Some val => project (requestKey r) val (Query r)
       end.
Proof. reflexivity. Qed.

(** A value has the shape a projection expects, or its branch gives up. *)
Lemma groupBranch_None val query :
  groupBranch val query = None ↔
  ¬ ∃ valMap groups, val = JObject valMap ∧
                     valMap !! "groups" = Some (JArray groups).
Proof.
  unfold groupBranch. destruct val as [| | | | |valMap]; cbn;
    try (split; [intros _ (? & ? & ? & ?); done | done]).
  destruct (valMap !! "groups") as [[| | | |groups|]|] eqn:Hg; cbn;
    try (split; [intros _ (? & ? & ? & ?); simplify_eq | done]).
  split; [done|]. intros []. eauto.
Qed.

Lemma platformBranch_None val :
  platformBranch val = None ↔
  ¬ ∃ valMap platforms, val = JObject valMap ∧
                        valMap !! "platforms" = Some (JArray platforms).
Proof.
  unfold platformBranch. destruct val as [| | | | |valMap]; cbn;
    try (split; [intros _ (? & ? & ? & ?); done | done]).
  destruct (valMap !! "platforms") as [[| | | |elems|]|] eqn:Hg; cbn;
    try (split; [intros _ (? & ? & ? & ?); simplify_eq | done]).
  split; [done|]. intros []. eauto.
Qed.

Lemma domainBranch_None val query :
  domainBranch val query = None ↔
  ¬ ∃ valMap domains, val = JObject valMap ∧
                      valMap !! "domains" = Some (JArray domains).
Proof.
  unfold domainBranch. destruct val as [| | | | |valMap]; cbn;
    try (split; [intros _ (? & ? & ? & ?); done | done]).
  destruct (valMap !! "domains") as [[| | | |elems|]|] eqn:Hg; cbn;
    try (split; [intros _ (? & ? & ? & ?); simplify_eq | done]).
  split; [done|]. intros []. eauto.
Qed.

Lemma hostBranch_None val query :
  hostBranch val query = None ↔
  ¬ ∃ valMap hosts, val = JObject valMap ∧
                    valMap !! "hosts" = Some (JArray hosts).
Proof.
  unfold hostBranch. destruct val as [| | | | |valMap]; cbn;
    try (split; [intros _ (? & ? & ? & ?); done | done]).
  destruct (valMap !! "hosts") as [[| | | |elems|]|] eqn:Hg; cbn;
    try (split; [intros _ (? & ? & ? & ?); simplify_eq | done]).
  split; [done|]. intros []. eauto.
Qed.

Lemma forallb_isMapping_false (elems : list JSON) :
  forallb isMapping elems = false → ∃ v, v ∈ elems ∧ asMap v = None.
Proof.
  induction elems as [|v elems IH]; [done|]. cbn [forallb].
  intros [Hv|Hrest]%andb_false_iff.
  - exists v. split; [apply list_elem_of_here|by destruct v].
  - destruct (IH Hrest) as (w & Hin & Hw). exists w.
    split; [by apply list_elem_of_further|done].
Qed.

(** Every outcome of the dispatch: a panic, an encoded value, or one of the
    three shape errors. *)
Lemma project_outcomes key val query :
  project key val query = Panicked ∨
  (∃ body, project key val query = Done (Encoded body)) ∨
  (∃ noun, noun ∈ ["platform"; "domain"; "host"] ∧
     project key val query =
     Done (HttpError (errorBody ("Failed to process " +:+ noun +:+ " data."))
                     StatusInternalServerError)).
Proof.
  unfold project.
  destruct (String.eqb key "/v1/group").
  { destruct (groupBranch val query) as [returned|] eqn:Hb; [|eauto].
    unfold groupBranch in Hb.
    destruct val as [| | | | |valMap]; try done. cbn in Hb.
    destruct (valMap !! "groups") as [[| | | |groups|]|]; try done.
    cbn in Hb. injection Hb as <-. rewrite forEach_groupStep.
    destruct (forallb isMapping groups); cbn; eauto. }
  destruct (String.eqb key "/v1/scan/platform").
  { destruct (platformBranch val) as [returned|] eqn:Hb.
    - unfold platformBranch in Hb.
      destruct val as [| | | | |valMap]; try done. cbn in Hb.
      destruct (valMap !! "platforms") as [[| | | |elems|]|]; try done.
      cbn in Hb. injection Hb as <-. eauto.
    - right; right. exists "platform". split; [set_solver|done]. }
  destruct (String.eqb key "/v1/domain").
  { destruct (domainBranch val query) as [returned|] eqn:Hb.
    - unfold domainBranch in Hb.
      destruct val as [| | | | |valMap]; try done. cbn in Hb.
      destruct (valMap !! "domains") as [[| | | |elems|]|]; try done.
      cbn in Hb. injection Hb as <-. eauto.
    - right; right. exists "domain". split; [set_solver|done]. }
  destruct (String.eqb key "/v1/host").
  { destruct (hostBranch val query) as [returned|] eqn:Hb.
    - unfold hostBranch in Hb.
      destruct val as [| | | | |valMap]; try done. cbn in Hb.
      destruct (valMap !! "hosts") as [[| | | |elems|]|]; try done.
      cbn in Hb. injection Hb as <-. eauto.
    - right; right. exists "host". split; [set_solver|done]. }
  eauto.
Qed.

End responses.

(** X2. The two handlers answer 500 with the body ["Data not loaded."]
    exactly on the empty document (which is also how a [nil] map reads):
    never on a document with at least one key, whatever the request. *)
Theorem not_loaded_exactly_on_empty_document
    (data : gmap string JSON) (r : Request) :
  (getDataHandler data r =
     Done (HttpError (errorBody "Data not loaded.") 500) ↔ data = ∅) ∧
  (getKeysHandler data r = HttpError (errorBody "Data not loaded.") 500 ↔
     data = ∅).
Proof.
  split.
  - rewrite getDataHandler_unfold. split.
    + destruct (notLoaded data) eqn:Hl; [by intros _; apply notLoaded_iff|].
      destruct (data !! requestKey r) as [val|]; [|done].
      destruct (project_outcomes (requestKey r) val (Query r))
        as [->|[[body ->]|(noun & Hn & ->)]]; [done..|].
      rewrite !elem_of_cons, elem_of_nil in Hn.
      destruct Hn as [->|[->|[->|[]]]]; vm_compute; intros [=].
    + by intros ->.
  - unfold getKeysHandler. split.
    + destruct (notLoaded data) eqn:Hl; [by intros _; apply notLoaded_iff|done].
    + by intros ->.
Qed.

(** X3. A request for a key that a loaded document lacks is answered 404 with
    the body [Key '<key>' not found.], where the key is the decoded one; and
    404 is answered in no other case. *)
Theorem not_found_exactly_on_missing_key
    (data : gmap string JSON) (r : Request) :
  (data ≠ ∅ → data !! requestKey r = None →
   getDataHandler data r =
   Done (HttpError (errorBody ("Key '" +:+ requestKey r +:+ "' not found."))
                   404)) ∧
  (∀ msg, getDataHandler data r = Done (HttpError msg 404) →
          data ≠ ∅ ∧ data !! requestKey r = None).
Proof.
  rewrite getDataHandler_unfold. split.
  - intros Hne%notLoaded_false_iff ->. by rewrite Hne.
  - intros msg. destruct (notLoaded data) eqn:Hl; [done|].
    apply notLoaded_false_iff in Hl.
    destruct (data !! requestKey r) as [val|]; [|done].
    destruct (project_outcomes (requestKey r) val (Query r))
      as [->|[[body ->]|(noun & _ & ->)]]; done.
Qed.

Lemma not_found_exactly_on_missing_key_witness :
  getDataHandler {[ "/v1/host" := JNull ]}
    {| Path := "/api/data/%2Fv1%2Fgroup"; Query := ∅ |}
  = Done (HttpError (errorBody "Key '/v1/group' not found.") 404).
Proof.
  refine (proj1 (not_found_exactly_on_missing_key {[ "/v1/host" := JNull ]}
            {| Path := "/api/data/%2Fv1%2Fgroup"; Query := ∅ |}) _ _).
  - intros Hd. apply (f_equal (λ m : gmap string JSON, m !! "/v1/host")) in Hd.
    vm_compute in Hd. discriminate.
  - reflexivity.
Defined.



(** X5. [getDataHandler] panics in one situation only: the request is for
    ["/v1/group"], the value there is a mapping whose [groups] is an array,
    and some element of that array is not a mapping. In every other case it
    writes a response. *)
Theorem panic_exactly_on_stray_group_element
    (data : gmap string JSON) (r : Request) :
  getDataHandler data r = Panicked ↔
  requestKey r = "/v1/group" ∧
  ∃ groups, shaped data "/v1/group" "groups" groups ∧
            ∃ v, v ∈ groups ∧ asMap v = None.
Proof.
  split.
  - rewrite getDataHandler_unfold.
    destruct (notLoaded data); [done|].
    destruct (data !! requestKey r) as [val|] eqn:Hk; [|done].
    unfold project.
    destruct (String.eqb_spec (requestKey r) "/v1/group") as [Hkey|_]; cycle 1.
    { repeat match goal with
             | |- context [if ?b then _ else _] => destruct b
             | |- context [match ?b with Some _ => _ | None => _ end] =>
                 let H := fresh in destruct b eqn:H
             end; try done;
        repeat match goal with
               | H : platformBranch _ = Some _ |- _ => unfold platformBranch in H
               | H : domainBranch _ _ = Some _ |- _ => unfold domainBranch in H
               | H : hostBranch _ _ = Some _ |- _ => unfold hostBranch in H
               end;
        destruct val as [| | | | |valMap]; try done; cbn in *;
        repeat match goal with
               | H : context [valMap !! ?k] |- _ =>
                   destruct (valMap !! k) as [[]|]; try done; cbn in H
               end; by simplify_eq. }
    rewrite Hkey in Hk.
    destruct (groupBranch val (Query r)) as [returned|] eqn:Hb; [|done].
    unfold groupBranch in Hb. destruct val as [| | | | |valMap]; try done.
    cbn in Hb.
    destruct (valMap !! "groups") as [[| | | |groups|]|] eqn:Hg; try done.
    cbn in Hb. injection Hb as <-. rewrite forEach_groupStep.
    destruct (forallb isMapping groups) eqn:Hall; [done|]. intros _.
    split; [done|]. exists groups. split; [by exists valMap|].
    by apply forallb_isMapping_false.
  - intros (Hkey & groups & (valMap & Hk & Hg) & v & Hin & Hv).
    rewrite (getDataHandler_found _ _ _ _ Hkey Hk), (project_group _ _ _ Hg).
    destruct (forallb isMapping groups) eqn:Hall; [|done].
    rewrite forallb_forall in Hall. apply list_elem_of_In, Hall in Hin.
    by destruct v.
Qed.

(** X6. For the platform, domain and host keys, when the key is present: the
    handler answers with a list (status 200) if the value is a mapping whose
    array field is an array, and otherwise with 500 and the body
    [Failed to process <noun> data.]; the value itself is never sent. *)
Theorem record_keys_shape_error
    (data : gmap string JSON) (r : Request) (key field noun : string)
    (val : JSON) :
  (key, field, noun) ∈ [("/v1/scan/platform", "platforms", "platform");
                        ("/v1/domain", "domains", "domain");
                        ("/v1/host", "hosts", "host")] →
  addresses r key →
  data !! key = Some val →
  ((∃ elems, shaped data key field elems) ∧
   ∃ out, getDataHandler data r = Done (Encoded (JArray out))) ∨
  ((¬ ∃ elems, shaped data key field elems) ∧
   getDataHandler data r =
   Done (HttpError (errorBody ("Failed to process " +:+ noun +:+ " data."))
                   500)).
Proof.
  intros Hin Hr Hk. rewrite (getDataHandler_found _ _ _ _ Hr Hk).
  assert (∀ elems, shaped data key field elems ↔
            ∃ valMap, val = JObject valMap ∧
                      valMap !! field = Some (JArray elems)) as Hshape.
  { intros elems. unfold shaped. rewrite Hk. split.
    - intros (valMap & [= ->] & Hf). eauto.
    - intros (valMap & -> & Hf). eauto. }
  rewrite !elem_of_cons, elem_of_nil in Hin.
  destruct Hin as [[= -> -> ->]|[[= -> -> ->]|[[= -> -> ->]|[]]]].
  - destruct (platformBranch val) as [returned|] eqn:Hb.
    + left. unfold platformBranch in Hb.
      destruct val as [| | | | |valMap]; try done. cbn in Hb.
      destruct (valMap !! "platforms") as [[| | | |elems|]|] eqn:Hf; try done.
      split; [exists elems; apply Hshape; eauto|].
      rewrite (project_platform _ _ _ Hf). eauto.
    + right. split.
      * apply platformBranch_None in Hb. intros [elems Hs]. apply Hb.
        apply Hshape in Hs as (valMap & -> & Hf). eauto.
      * unfold project. cbn. by rewrite Hb.
  - destruct (domainBranch val (Query r)) as [returned|] eqn:Hb.
    + left. unfold domainBranch in Hb.
      destruct val as [| | | | |valMap]; try done. cbn in Hb.
      destruct (valMap !! "domains") as [[| | | |elems|]|] eqn:Hf; try done.
      split; [exists elems; apply Hshape; eauto|].
      rewrite (project_domain _ _ _ Hf). eauto.
    + right. split.
      * apply domainBranch_None in Hb. intros [elems Hs]. apply Hb.
        apply Hshape in Hs as (valMap & -> & Hf). eauto.
      * unfold project. cbn. by rewrite Hb.
  - destruct (hostBranch val (Query r)) as [returned|] eqn:Hb.
    + left. unfold hostBranch in Hb.
      destruct val as [| | | | |valMap]; try done. cbn in Hb.
      destruct (valMap !! "hosts") as [[| | | |elems|]|] eqn:Hf; try done.
      split; [exists elems; apply Hshape; eauto|].
      rewrite (project_host _ _ _ Hf). eauto.
    + right. split.
      * apply hostBranch_None in Hb. intros [elems Hs]. apply Hb.
        apply Hshape in Hs as (valMap & -> & Hf). eauto.
      * unfold project. cbn. by rewrite Hb.
Qed.

Lemma record_keys_shape_error_witness :
  getDataHandler platformsNotArray
    {| Path := "/api/data/%2Fv1%2Fscan%2Fplatform"; Query := ∅ |}
  = Done (HttpError (errorBody "Failed to process platform data.") 500).
Proof.
  destruct (record_keys_shape_error platformsNotArray
              {| Path := "/api/data/%2Fv1%2Fscan%2Fplatform"; Query := ∅ |}
              "/v1/scan/platform" "platforms" "platform"
              (JObject {[ "platforms" := JString "k8s" ]}))
    as [[[elems (valMap & Hk & Hf)] _]|[_ Hresp]].
  - apply list_elem_of_here.
  - reflexivity.
  - reflexivity.
  - vm_compute in Hk. injection Hk as <-. vm_compute in Hf. discriminate.
  - exact Hresp.
Defined.

(** ** What of the query the handler reads *)

Section query_dependence.

Implicit Types (q : gmap string (list string)) (val : JSON).

Lemma eqb_empty_ToLower a b :
  strings.ToLower a = strings.ToLower b → String.eqb a "" = String.eqb b "".
Proof.
  intros Hab. destruct a, b; try done; discriminate.
Qed.

Lemma groupKept_ToLower_domain fz fd1 fd2 fp group :
  strings.ToLower fd1 = strings.ToLower fd2 →
  groupKept fz fd1 fp group = groupKept fz fd2 fp group.
Proof.
  intros Hfd. unfold groupKept.
  by rewrite (eqb_empty_ToLower _ _ Hfd), Hfd.
Qed.

Lemma domainKept_ToLower f1 f2 d :
  strings.ToLower f1 = strings.ToLower f2 → domainKept f1 d = domainKept f2 d.
Proof.
  intros Hf. unfold domainKept. by rewrite (eqb_empty_ToLower _ _ Hf), Hf.
Qed.

Lemma hostKept_ToLower f1 f2 h :
  strings.ToLower f1 = strings.ToLower f2 → hostKept f1 h = hostKept f2 h.
Proof.
  intros Hf. unfold hostKept. by rewrite (eqb_empty_ToLower _ _ Hf), Hf.
Qed.

(** The dispatch reads the query through the group test and the lowered
    [domain] only. *)
Lemma project_ext key val q1 q2 :
  strings.ToLower (Get q1 "domain") = strings.ToLower (Get q2 "domain") →
  (∀ group,
     groupKept (Get q1 "zero_drift") (Get q1 "domain")
               (strings.ToLower (Get q1 "policy_mode")) group =
     groupKept (Get q2 "zero_drift") (Get q2 "domain")
               (strings.ToLower (Get q2 "policy_mode")) group) →
  project key val q1 = project key val q2.
Proof.
  intros Hd Hkept.
  destruct (String.eqb_spec key "/v1/group") as [->|Hg].
  { destruct (groupBranch val q1) as [returned|] eqn:Hb; cycle 1.
    { rewrite !project_group_fallthrough; [done| |done].
      apply groupBranch_None. by apply groupBranch_None in Hb. }
    unfold groupBranch in Hb. destruct val as [| | | | |valMap]; try done.
    cbn in Hb.
    destruct (valMap !! "groups") as [[| | | |groups|]|] eqn:Hf; try done.
    rewrite !(project_group _ _ _ Hf).
    destruct (forallb isMapping groups); [|done]. do 3 f_equal.
    apply list_filter_iff. intros v.
    destruct v; try done. cbn. by rewrite Hkept. }
  destruct (String.eqb_spec key "/v1/scan/platform") as [->|Hp'].
  { unfold project. by cbn. }
  destruct (String.eqb_spec key "/v1/domain") as [->|Hd'].
  { destruct (domainBranch val q1) as [returned|] eqn:Hb; cycle 1.
    { unfold project. cbn. rewrite Hb.
      apply domainBranch_None in Hb.
      by rewrite (proj2 (domainBranch_None val q2) Hb). }
    unfold domainBranch in Hb. destruct val as [| | | | |valMap]; try done.
    cbn in Hb.
    destruct (valMap !! "domains") as [[| | | |domains|]|] eqn:Hf; try done.
    rewrite !(project_domain _ _ _ Hf). do 5 f_equal.
    apply list_filter_iff. intros d. by rewrite (domainKept_ToLower _ _ _ Hd). }
  destruct (String.eqb_spec key "/v1/host") as [->|Hh'].
  { destruct (hostBranch val q1) as [returned|] eqn:Hb; cycle 1.
    { unfold project. cbn. rewrite Hb.
      apply hostBranch_None in Hb.
      by rewrite (proj2 (hostBranch_None val q2) Hb). }
    unfold hostBranch in Hb. destruct val as [| | | | |valMap]; try done.
    cbn in Hb.
    destruct (valMap !! "hosts") as [[| | | |hosts|]|] eqn:Hf; try done.
    rewrite !(project_host _ _ _ Hf). do 5 f_equal.
    apply list_filter_iff. intros h. by rewrite (hostKept_ToLower _ _ _ Hd). }
  unfold project.
  apply String.eqb_neq in Hg, Hp', Hd', Hh'. by rewrite Hg, Hp', Hd', Hh'.
Qed.

Lemma project_sameFilters key val q1 q2 :
  sameFilters q1 q2 → project key val q1 = project key val q2.
Proof.
  intros (Hz & Hd & Hp). apply project_ext; [done|].
  intros group. rewrite Hz, Hp. by apply groupKept_ToLower_domain.
Qed.

End query_dependence.

(** X7. Of the query, [getDataHandler] reads three things only: the first
    value of [zero_drift] as it is, and the first values of [domain] and of
    [policy_mode] up to the case of letters. Two requests with the same path
    that agree on these get the same response, for every document: other
    parameters and further values of a repeated parameter count for
    nothing. *)
Theorem response_depends_on_three_parameters
    (data : gmap string JSON) (path : string)
    (q1 q2 : gmap string (list string)) :
  sameFilters q1 q2 →
  getDataHandler data {| Path := path; Query := q1 |} =
  getDataHandler data {| Path := path; Query := q2 |}.
Proof.
  intros Hq. rewrite !getDataHandler_unfold. cbn [Query].
  change (requestKey {| Path := path; Query := q2 |})
    with (requestKey {| Path := path; Query := q1 |}).
  destruct (notLoaded data); [done|].
  destruct (data !! _) as [val|]; [|done].
  by apply project_sameFilters.
Qed.

Lemma response_depends_on_three_parameters_witness :
  getDataHandler scenarioData
    {| Path := "/api/data/%2Fv1%2Fgroup";
       Query := {[ "domain" := ["PROD"]; "page" := ["2"] ]} |} =
  getDataHandler scenarioData
    {| Path := "/api/data/%2Fv1%2Fgroup";
       Query := {[ "domain" := ["prod"; "other"] ]} |}.
Proof.
  apply (response_depends_on_three_parameters scenarioData).
  repeat split; reflexivity.
Defined.

(** ** The group list, filter by filter *)

Section group_answers.

Implicit Types (data : gmap string JSON) (r : Request) (q : gmap string (list string)).
Implicit Types (groups out : list JSON) (group : gmap string JSON).

(** The group test of a query. *)
Local Abbreviation keptBy q :=
  (groupKeptElem (Get q "zero_drift") (Get q "domain")
                 (strings.ToLower (Get q "policy_mode"))).

Lemma group_answer data r groups :
  addresses r "/v1/group" → shaped data "/v1/group" "groups" groups →
  forallb isMapping groups = true →
  getDataHandler data r =
  Done (Encoded (JArray (filter (λ v, keptBy (Query r) v = true) groups))).
Proof.
  intros Hr (valMap & Hk & Hg) Hall.
  by rewrite (getDataHandler_found _ _ _ _ Hr Hk), (project_group _ _ _ Hg), Hall.
Qed.

Lemma group_answer_inv data r groups out :
  addresses r "/v1/group" → shaped data "/v1/group" "groups" groups →
  getDataHandler data r = Done (Encoded (JArray out)) →
  forallb isMapping groups = true ∧
  out = filter (λ v, keptBy (Query r) v = true) groups.
Proof.
  intros Hr (valMap & Hk & Hg).
  rewrite (getDataHandler_found _ _ _ _ Hr Hk), (project_group _ _ _ Hg).
  destruct (forallb isMapping groups); [|done]. by intros [= <-].
Qed.

Lemma Get_insert_eq q k v : Get (<[k := [v]]> q) k = v.
Proof. unfold Get. by rewrite lookup_insert_eq. Qed.

Lemma Get_insert_ne q k k' vs : k ≠ k' → Get (<[k := vs]> q) k' = Get q k'.
Proof. intros. unfold Get. by rewrite lookup_insert_ne. Qed.

Lemma Get_onlyParam_eq q k : Get (onlyParam k q) k = Get q k.
Proof. unfold onlyParam, Get at 1. by rewrite lookup_singleton_eq. Qed.

Lemma Get_onlyParam_ne q k k' : k ≠ k' → Get (onlyParam k q) k' = "".
Proof. intros. unfold onlyParam, Get. by rewrite lookup_singleton_ne. Qed.

Local Ltac kept_cases :=
  repeat match goal with
         | |- context [strings.HasPrefix ?a ?b] => destruct (strings.HasPrefix a b)
         | |- context [boolField ?g ?k] => destruct (boolField g k)
         | |- context [strings.Contains ?a ?b] => destruct (strings.Contains a b)
         | |- context [String.eqb ?a ?b] => destruct (String.eqb a b)
         end; done.

Lemma boolField_true group k :
  boolField group k = true ↔ index group k = JBool true.
Proof.
  unfold boolField. destruct (index group k) as [|[]| | | |]; cbn; split; done.
Qed.

Lemma groupKept_zero_drift_true fd fp group :
  groupKept "true" fd fp group =
  groupKept "" fd fp group && boolField group "zero_drift_enabled".
Proof.
  unfold groupKept. cbn.
  kept_cases.
Qed.

Lemma groupKept_zero_drift_false fd fp group :
  groupKept "false" fd fp group =
  groupKept "" fd fp group && negb (boolField group "zero_drift_enabled").
Proof.
  unfold groupKept. cbn.
  kept_cases.
Qed.

Lemma groupKept_zero_drift_other fz fd fp group :
  fz ≠ "true" → fz ≠ "false" →
  groupKept fz fd fp group = groupKept "" fd fp group.
Proof.
  intros Ht%String.eqb_neq Hf%String.eqb_neq. unfold groupKept.
  rewrite Ht, Hf. cbn. by rewrite andb_false_r.
Qed.


Lemma groupKept_split fz fd fp group :
  groupKept fz fd fp group =
  groupKept fz "" "" group && groupKept "" fd "" group &&
  groupKept "" "" fp group.
Proof.
  unfold groupKept. cbn.
  destruct (strings.HasPrefix _ "_"); cbn; [done|].
  rewrite !andb_true_r.
  kept_cases.
Qed.

Lemma forallb_isMapping_filter (P : JSON → Prop) `{!∀ v, Decision (P v)} groups :
  forallb isMapping groups = true →
  forallb isMapping (filter P groups) = true.
Proof.
  rewrite !forallb_forall. intros Hall v Hin%list_elem_of_In.
  apply list_elem_of_filter in Hin as [_ Hin]. by apply Hall, list_elem_of_In.
Qed.

End group_answers.

(** X8. The values ["true"] and ["false"] of [zero_drift] split the group
    list in two: with the other parameters fixed, every group of the answer
    without [zero_drift] is in the answer for ["true"] or in the one for
    ["false"], never in both; the first holds the groups whose
    [zero_drift_enabled] is the boolean [true], the second all others
    (missing or non-boolean fields included). *)
Theorem zero_drift_splits_group_list
    (data : gmap string JSON) (path : string) (q : gmap string (list string))
    (groups out : list JSON) :
  addresses {| Path := path; Query := q |} "/v1/group" →
  shaped data "/v1/group" "groups" groups →
  getDataHandler data {| Path := path; Query := delete "zero_drift" q |}
    = Done (Encoded (JArray out)) →
  ∃ outT outF,
    getDataHandler data
      {| Path := path; Query := <["zero_drift" := ["true"]]> q |}
      = Done (Encoded (JArray outT)) ∧
    getDataHandler data
      {| Path := path; Query := <["zero_drift" := ["false"]]> q |}
      = Done (Encoded (JArray outF)) ∧
    (∀ v, v ∈ out ↔ v ∈ outT ∨ v ∈ outF) ∧
    (∀ v, v ∈ outT → v ∉ outF) ∧
    (∀ group, JObject group ∈ outT →
              index group "zero_drift_enabled" = JBool true) ∧
    (∀ group, JObject group ∈ outF →
              index group "zero_drift_enabled" ≠ JBool true).
Proof.
  intros Hr Hs Hout.
  apply (group_answer_inv data {| Path := path; Query := delete _ q |} groups)
    in Hout as [Hall ->]; [|exact Hr|exact Hs].
  do 2 eexists.
  split; [apply (group_answer data _ groups); [exact Hr|exact Hs|exact Hall]|].
  split; [apply (group_answer data _ groups); [exact Hr|exact Hs|exact Hall]|].
  cbn [Query].
  rewrite !Get_insert_eq, Get_delete_eq, !Get_insert_ne, !Get_delete_ne by done.
  repeat split.
  - intros [Hkept Hin]%list_elem_of_filter. rewrite !list_elem_of_filter.
    destruct v as [| | | | |group]; try done. cbn in Hkept |- *.
    rewrite groupKept_zero_drift_true, groupKept_zero_drift_false, Hkept.
    destruct (boolField group "zero_drift_enabled"); auto.
  - rewrite !list_elem_of_filter. intros [[Hkept Hin]|[Hkept Hin]];
      (split; [|done]); destruct v as [| | | | |group]; try done;
      cbn in Hkept |- *.
    + rewrite groupKept_zero_drift_true in Hkept.
      by apply andb_true_iff in Hkept as [? _].
    + rewrite groupKept_zero_drift_false in Hkept.
      by apply andb_true_iff in Hkept as [? _].
  - intros v [HT _]%list_elem_of_filter [HF _]%list_elem_of_filter.
    destruct v as [| | | | |group]; try done. cbn in HT, HF.
    rewrite groupKept_zero_drift_true in HT.
    rewrite groupKept_zero_drift_false in HF.
    apply andb_true_iff in HT as [_ HT]. apply andb_true_iff in HF as [_ HF].
    by rewrite HT in HF.
  - intros group [HT _]%list_elem_of_filter. cbn in HT.
    rewrite groupKept_zero_drift_true in HT.
    apply andb_true_iff in HT as [_ HT]. by apply boolField_true.
  - intros group [HF _]%list_elem_of_filter Hb. cbn in HF.
    rewrite groupKept_zero_drift_false in HF.
    apply andb_true_iff in HF as [_ HF]. apply boolField_true in Hb.
    by rewrite Hb in HF.
Qed.

Lemma zero_drift_splits_group_list_witness :
  ∃ outT outF,
    getDataHandler twoGroups
      {| Path := "/api/data/%2Fv1%2Fgroup";
         Query := <["zero_drift" := ["true"]]> ∅ |}
      = Done (Encoded (JArray outT)) ∧
    getDataHandler twoGroups
      {| Path := "/api/data/%2Fv1%2Fgroup";
         Query := <["zero_drift" := ["false"]]> ∅ |}
      = Done (Encoded (JArray outF)) ∧
    length outT = 1 ∧ length outF = 1.
Proof.
  destruct (zero_drift_splits_group_list twoGroups "/api/data/%2Fv1%2Fgroup" ∅
    [JObject {[ "name" := JString "g1"; "domain" := JString "prod";
                "zero_drift_enabled" := JBool true ]};
     JObject {[ "name" := JString "g2"; "domain" := JString "prod" ]}]
    [JObject {[ "name" := JString "g1"; "domain" := JString "prod";
                "zero_drift_enabled" := JBool true ]};
     JObject {[ "name" := JString "g2"; "domain" := JString "prod" ]}])
    as (outT & outF & HT & HF & _).
  - reflexivity.
  - eexists. split; reflexivity.
  - vm_compute. reflexivity.
  - exists outT, outF. split; [exact HT|]. split; [exact HF|].
    vm_compute in HT, HF. injection HT as <-. injection HF as <-.
    split; reflexivity.
Defined.

(** X9. A [zero_drift] value other than ["true"] and ["false"] (so also
    ["TRUE"] or ["1"]) filters nothing: the response is the one without the
    parameter, for every document and path. *)
Theorem zero_drift_other_values_ignored
    (data : gmap string JSON) (path : string) (q : gmap string (list string)) :
  Get q "zero_drift" ≠ "true" →
  Get q "zero_drift" ≠ "false" →
  getDataHandler data {| Path := path; Query := q |} =
  getDataHandler data {| Path := path; Query := delete "zero_drift" q |}.
Proof.
  intros Ht Hf. rewrite !getDataHandler_unfold. cbn [Query].
  change (requestKey {| Path := path; Query := delete "zero_drift" q |})
    with (requestKey {| Path := path; Query := q |}).
  destruct (notLoaded data); [done|].
  destruct (data !! _) as [val|]; [|done].
  apply project_ext.
  - by rewrite Get_delete_ne.
  - intros group. rewrite Get_delete_eq, !Get_delete_ne by done.
    by apply groupKept_zero_drift_other.
Qed.

Lemma zero_drift_other_values_ignored_witness :
  getDataHandler twoGroups
    {| Path := "/api/data/%2Fv1%2Fgroup";
       Query := {[ "zero_drift" := ["TRUE"] ]} |} =
  getDataHandler twoGroups
    {| Path := "/api/data/%2Fv1%2Fgroup";
       Query := delete "zero_drift" {[ "zero_drift" := ["TRUE"] ]} |}.
Proof.
  apply (zero_drift_other_values_ignored twoGroups); discriminate.
Defined.



(** X11. The three group filters are tested one by one and all must pass: a
    group is in the answer to a query exactly when it is in the answers to
    the three queries that keep one of [zero_drift], [domain] and
    [policy_mode] each. So the order in which filters are given or applied
    makes no difference. *)
Theorem group_filters_are_independent
    (data : gmap string JSON) (path : string) (q : gmap string (list string))
    (groups out : list JSON) :
  addresses {| Path := path; Query := q |} "/v1/group" →
  shaped data "/v1/group" "groups" groups →
  getDataHandler data {| Path := path; Query := q |}
    = Done (Encoded (JArray out)) →
  ∃ outZ outD outP,
    getDataHandler data {| Path := path; Query := onlyParam "zero_drift" q |}
      = Done (Encoded (JArray outZ)) ∧
    getDataHandler data {| Path := path; Query := onlyParam "domain" q |}
      = Done (Encoded (JArray outD)) ∧
    getDataHandler data {| Path := path; Query := onlyParam "policy_mode" q |}
      = Done (Encoded (JArray outP)) ∧
    ∀ v, v ∈ out ↔ v ∈ outZ ∧ v ∈ outD ∧ v ∈ outP.
Proof.
  intros Hr Hs Hout.
  apply (group_answer_inv data _ groups) in Hout as [Hall ->]; [|done..].
  do 3 eexists.
  split; [apply (group_answer data _ groups); [exact Hr|exact Hs|exact Hall]|].
  split; [apply (group_answer data _ groups); [exact Hr|exact Hs|exact Hall]|].
  split; [apply (group_answer data _ groups); [exact Hr|exact Hs|exact Hall]|].
  cbn [Query]. rewrite !Get_onlyParam_eq, !Get_onlyParam_ne by done.
  intros v. rewrite !list_elem_of_filter.
  destruct v as [| | | | |group]; cbn;
    try (split; [by intros [? _] | by intros [[? _] _]]).
  rewrite (groupKept_split (Get q "zero_drift")), !andb_true_iff. tauto.
Qed.

Lemma group_filters_are_independent_witness :
  let q : gmap string (list string) :=
    {[ "domain" := ["prod"]; "zero_drift" := ["true"] ]} in
  ∃ outZ outD outP,
    getDataHandler twoGroups
      {| Path := "/api/data/%2Fv1%2Fgroup"; Query := onlyParam "zero_drift" q |}
      = Done (Encoded (JArray outZ)) ∧
    getDataHandler twoGroups
      {| Path := "/api/data/%2Fv1%2Fgroup"; Query := onlyParam "domain" q |}
      = Done (Encoded (JArray outD)) ∧
    getDataHandler twoGroups
      {| Path := "/api/data/%2Fv1%2Fgroup"; Query := onlyParam "policy_mode" q |}
      = Done (Encoded (JArray outP)) ∧
    length outZ = 1 ∧ length outD = 2 ∧ length outP = 2.
Proof.
  intros q.
  destruct (group_filters_are_independent twoGroups "/api/data/%2Fv1%2Fgroup" q
    [JObject {[ "name" := JString "g1"; "domain" := JString "prod";
                "zero_drift_enabled" := JBool true ]};
     JObject {[ "name" := JString "g2"; "domain" := JString "prod" ]}]
    [JObject {[ "name" := JString "g1"; "domain" := JString "prod";
                "zero_drift_enabled" := JBool true ]}])
    as (outZ & outD & outP & HZ & HD & HP & _).
  - reflexivity.
  - eexists. split; reflexivity.
  - vm_compute. reflexivity.
  - exists outZ, outD, outP.
    split; [exact HZ|]. split; [exact HD|]. split; [exact HP|].
    vm_compute in HZ, HD, HP.
    injection HZ as <-. injection HD as <-. injection HP as <-.
    repeat split; reflexivity.
Defined.

(** X12. The group answer is a sublist of [groups]: the groups kept are
    sent unchanged and in the order of the document. Filtering again
    changes nothing: on a document that holds the answer in place of
    [groups], the same request gets the same answer. *)
Theorem group_answer_in_order_and_stable
    (data : gmap string JSON) (r : Request) (valMap : gmap string JSON)
    (groups out : list JSON) :
  addresses r "/v1/group" →
  data !! "/v1/group" = Some (JObject valMap) →
  valMap !! "groups" = Some (JArray groups) →
  getDataHandler data r = Done (Encoded (JArray out)) →
  out `sublist_of` groups ∧
  getDataHandler
    (<["/v1/group" := JObject (<["groups" := JArray out]> valMap)]> data) r
  = Done (Encoded (JArray out)).
Proof.
  intros Hr Hk Hg Hout.
  apply (group_answer_inv data r groups) in Hout as [Hall ->];
    [|done|by exists valMap].
  split; [apply sublist_filter|].
  match goal with
  | |- context [JArray (filter ?P groups)] =>
      rewrite (group_answer _ r (filter P groups))
  end.
  - by rewrite list_filter_filter_l.
  - done.
  - eexists. split; [apply lookup_insert_eq|apply lookup_insert_eq].
  - by apply forallb_isMapping_filter.
Qed.

Lemma group_answer_in_order_and_stable_witness :
  [g1Elem] `sublist_of` [g1Elem; sysElem] ∧
  getDataHandler
    (<["/v1/group" :=
         JObject (<["groups" := JArray [g1Elem]]>
                    {[ "groups" := JArray [g1Elem; sysElem] ]})]> scenarioData)
    {| Path := "/api/data/%2Fv1%2Fgroup"; Query := {[ "domain" := ["prod"] ]} |}
  = Done (Encoded (JArray [g1Elem])).
Proof.
  apply (group_answer_in_order_and_stable scenarioData
           {| Path := "/api/data/%2Fv1%2Fgroup";
              Query := {[ "domain" := ["prod"] ]} |}
           {[ "groups" := JArray [g1Elem; sysElem] ]} [g1Elem; sysElem]).
  - reflexivity.
  - reflexivity.
  - reflexivity.
  - vm_compute. reflexivity.
Defined.

(** X13. Without any of the three filter parameters, the group answer holds
    exactly the groups whose [name] does not start with ["_"]; a group that
    has no [name], or one that is not a string, counts as named by the empty
    string and is kept. *)
Theorem unfiltered_group_answer
    (data : gmap string JSON) (r : Request) (groups out : list JSON) :
  addresses r "/v1/group" →
  shaped data "/v1/group" "groups" groups →
  Get (Query r) "zero_drift" = "" →
  Get (Query r) "domain" = "" →
  Get (Query r) "policy_mode" = "" →
  getDataHandler data r = Done (Encoded (JArray out)) →
  ∀ v, v ∈ out ↔
       v ∈ groups ∧
       ∃ group, v = JObject group ∧
         match group !! "name" with
         | Some (JString name) => strings.HasPrefix name "_" = false
         | _ => True
         end.
Proof.
  intros Hr Hs Hz Hd Hp Hout.
  apply (group_answer_inv data r groups) in Hout as [Hall ->]; [|done..].
  rewrite Hz, Hd, Hp. intros v. rewrite list_elem_of_filter.
  destruct v as [| | | | |group]; cbn;
    try (split; [by intros [? _] | by intros [_ (? & ? & _)]]).
  unfold groupKept, stringField, index. cbn. rewrite !andb_true_r.
  split.
  - intros [Hn Hin]. split; [done|]. exists group. split; [done|].
    destruct (group !! "name") as [[]|]; try done. cbn in Hn.
    by apply negb_true_iff in Hn.
  - intros [Hin (group' & [= <-] & Hn)]. split; [|done].
    destruct (group !! "name") as [[]|]; try done. cbn.
    by apply negb_true_iff.
Qed.

Lemma unfiltered_group_answer_witness :
  g1Elem ∈ [g1Elem] ↔
  g1Elem ∈ [g1Elem; sysElem] ∧
  ∃ group, g1Elem = JObject group ∧
    match group !! "name" with
    | Some (JString name) => strings.HasPrefix name "_" = false
    | _ => True
    end.
Proof.
  apply (unfiltered_group_answer scenarioData
           {| Path := "/api/data/%2Fv1%2Fgroup"; Query := ∅ |}
           [g1Elem; sysElem] [g1Elem]).
  - reflexivity.
  - eexists. split; reflexivity.
  - reflexivity.
  - reflexivity.
  - reflexivity.
  - vm_compute. reflexivity.
Defined.

(** ** The records of the three other lists *)

Section records.

Implicit Types m s : gmap string JSON.

Lemma dom_newDomain m :
  dom (newDomain m) =
  ({[ "name"; "workloads"; "running_workloads"; "running_pods"; "services" ]}
     : gset string).
Proof. unfold newDomain. rewrite !dom_insert_L, dom_empty_L. set_solver. Qed.

Lemma lookup_newDomain m k :
  k ∈ ["name"; "workloads"; "running_workloads"; "running_pods"; "services"] →
  newDomain m !! k = Some (index m k).
Proof.
  rewrite !elem_of_cons, elem_of_nil. unfold newDomain.
  intros [->|[->|[->|[->|[->|[]]]]]];
    by rewrite ?lookup_insert_ne, lookup_insert_eq by done.
Qed.

Lemma newHost_without_summary m :
  (∀ s, m !! "scan_summary" ≠ Some (JObject s)) →
  dom (newHost m) =
    ({[ "name"; "state"; "os"; "platform"; "containers" ]} : gset string) ∧
  ∀ k, k ∈ ["name"; "state"; "os"; "platform"; "containers"] →
       newHost m !! k = Some (index m k).
Proof.
  intros Hno. unfold newHost.
  destruct (m !! "scan_summary") as [[| | | | |s]|]; try (by destruct (Hno s));
    (split; [rewrite !dom_insert_L, dom_empty_L; set_solver|]);
    intros k; rewrite !elem_of_cons, elem_of_nil;
    intros [->|[->|[->|[->|[->|[]]]]]];
    by rewrite ?lookup_insert_ne, lookup_insert_eq by done.
Qed.

Lemma newHost_with_summary m s :
  m !! "scan_summary" = Some (JObject s) →
  dom (newHost m) =
    ({[ "name"; "state"; "os"; "platform"; "containers";
        "scan_status"; "high"; "medium"; "scanned_at" ]} : gset string) ∧
  (∀ k, k ∈ ["name"; "state"; "os"; "platform"; "containers"] →
        newHost m !! k = Some (index m k)) ∧
  newHost m !! "scan_status" = Some (index s "status") ∧
  (∀ k, k ∈ ["high"; "medium"; "scanned_at"] →
        newHost m !! k = Some (index s k)).
Proof.
  intros Hs. unfold newHost. rewrite Hs.
  split; [rewrite !dom_insert_L, dom_empty_L; set_solver|].
  split; [|split].
  - intros k; rewrite !elem_of_cons, elem_of_nil.
    intros [->|[->|[->|[->|[->|[]]]]]];
      by rewrite ?lookup_insert_ne, lookup_insert_eq by done.
  - by rewrite ?lookup_insert_ne, lookup_insert_eq by done.
  - intros k; rewrite !elem_of_cons, elem_of_nil.
    intros [->|[->|[->|[]]]];
      by rewrite ?lookup_insert_ne, lookup_insert_eq by done.
Qed.

Lemma newPlatform_without_summary m :
  (∀ s, m !! "scan_summary" ≠ Some (JObject s)) →
  dom (newPlatform m) = ({[ "platform"; "status"; "version" ]} : gset string) ∧
  ∀ k, k ∈ ["platform"; "status"] → newPlatform m !! k = Some (index m k).
Proof.
  intros Hno. unfold newPlatform.
  destruct (m !! "scan_summary") as [[| | | | |s]|]; try (by destruct (Hno s));
    (split; [rewrite !dom_insert_L, dom_empty_L; set_solver|]);
    intros k; rewrite !elem_of_cons, elem_of_nil;
    intros [->|[->|[]]];
    by rewrite ?lookup_insert_ne, lookup_insert_eq by done.
Qed.

Lemma newPlatform_with_summary m s :
  m !! "scan_summary" = Some (JObject s) →
  dom (newPlatform m) =
    ({[ "platform"; "status"; "version"; "high"; "medium"; "scanned_at" ]}
       : gset string) ∧
  (∀ k, k ∈ ["platform"; "status"] → newPlatform m !! k = Some (index m k)) ∧
  (∀ k, k ∈ ["high"; "medium"; "scanned_at"] →
        newPlatform m !! k = Some (index s k)).
Proof.
  intros Hs. unfold newPlatform. rewrite Hs.
  split; [rewrite !dom_insert_L, dom_empty_L; set_solver|].
  split.
  - intros k; rewrite !elem_of_cons, elem_of_nil.
    intros [->|[->|[]]];
      by rewrite ?lookup_insert_ne, lookup_insert_eq by done.
  - intros k; rewrite !elem_of_cons, elem_of_nil.
    intros [->|[->|[->|[]]]];
      by rewrite ?lookup_insert_ne, lookup_insert_eq by done.
Qed.

End records.





(** X16. A domain record has the five fields [name], [workloads],
    [running_workloads], [running_pods] and [services] and no other, each
    with the element's value, or [null] where the element has none. *)
Theorem domain_record_fields (domainMap : gmap string JSON) (k : string) :
  dom (newDomain domainMap) =
    ({[ "name"; "workloads"; "running_workloads"; "running_pods"; "services" ]}
       : gset string) ∧
  (k ∈ ["name"; "workloads"; "running_workloads"; "running_pods"; "services"] →
   newDomain domainMap !! k = Some (default JNull (domainMap !! k))).
Proof. split; [apply dom_newDomain|apply lookup_newDomain]. Qed.

Lemma domain_record_fields_witness :
  newDomain {[ "name" := JString "prod"; "tags" := JNull ]} !! "services"
  = Some JNull.
Proof.
  refine (proj2 (domain_record_fields
                   {[ "name" := JString "prod"; "tags" := JNull ]} "services") _).
  do 4 apply list_elem_of_further. apply list_elem_of_here.
Defined.

(** X17. A host record has the fields [name], [state], [os], [platform] and
    [containers] with the element's values ([null] where missing). When the
    element's [scan_summary] is a mapping, the record has four more fields
    from it: [scan_status], which is its [status], and [high], [medium],
    [scanned_at]. When [scan_summary] is missing or is not a mapping, the
    record has the five fields only. *)
Theorem host_record_fields (hostMap : gmap string JSON) :
  (∀ k, k ∈ ["name"; "state"; "os"; "platform"; "containers"] →
        newHost hostMap !! k = Some (default JNull (hostMap !! k))) ∧
  match hostMap !! "scan_summary" with
  | Some (JObject scanSummaryMap) =>
      dom (newHost hostMap) =
        ({[ "name"; "state"; "os"; "platform"; "containers";
            "scan_status"; "high"; "medium"; "scanned_at" ]} : gset string) ∧
      newHost hostMap !! "scan_status"
        = Some (default JNull (scanSummaryMap !! "status")) ∧
      ∀ k, k ∈ ["high"; "medium"; "scanned_at"] →
           newHost hostMap !! k = Some (default JNull (scanSummaryMap !! k))
  | _ =>
      dom (newHost hostMap) =
        ({[ "name"; "state"; "os"; "platform"; "containers" ]} : gset string)
  end.
Proof.
  destruct (hostMap !! "scan_summary") as [[| | | | |s]|] eqn:Hs;
    try (destruct (newHost_without_summary hostMap) as [Hd Hl];
         [intros s'; rewrite Hs; done|by split]).
  destruct (newHost_with_summary hostMap s Hs) as (Hd & Hl & Hst & Hsum).
  by repeat split.
Qed.

Lemma host_record_fields_witness :
  newHost {[ "name" := JString "n1"; "scan_summary" := JString "none" ]}
    !! "os" = Some JNull.
Proof.
  refine (proj1 (host_record_fields
            {[ "name" := JString "n1"; "scan_summary" := JString "none" ]})
            "os" _).
  do 2 apply list_elem_of_further. apply list_elem_of_here.
Defined.

(** X18. A platform record has the fields [platform] and [status] with the
    element's values ([null] where missing) and the computed [version]. When
    the element's [scan_summary] is a mapping, the record also has [high],
    [medium] and [scanned_at] from it; otherwise it has the three fields
    only. *)
Theorem platform_record_fields (platformMap : gmap string JSON) :
  (∀ k, k ∈ ["platform"; "status"] →
        newPlatform platformMap !! k = Some (default JNull (platformMap !! k))) ∧
  match platformMap !! "scan_summary" with
  | Some (JObject scanSummaryMap) =>
      dom (newPlatform platformMap) =
        ({[ "platform"; "status"; "version"; "high"; "medium"; "scanned_at" ]}
           : gset string) ∧
      ∀ k, k ∈ ["high"; "medium"; "scanned_at"] →
           newPlatform platformMap !! k
           = Some (default JNull (scanSummaryMap !! k))
  | _ =>
      dom (newPlatform platformMap) =
        ({[ "platform"; "status"; "version" ]} : gset string)
  end.
Proof.
  destruct (platformMap !! "scan_summary") as [[| | | | |s]|] eqn:Hs;
    try (destruct (newPlatform_without_summary platformMap) as [Hd Hl];
         [intros s'; rewrite Hs; done|by split]).
  destruct (newPlatform_with_summary platformMap s Hs) as (Hd & Hl & Hsum).
  by repeat split.
Qed.

Lemma platform_record_fields_witness :
  newPlatform {[ "platform" := JString "Kubernetes";
                 "scan_summary" := JObject {[ "high" := JBool true ]} ]}
    !! "status" = Some JNull.
Proof.
  refine (proj1 (platform_record_fields
            {[ "platform" := JString "Kubernetes";
               "scan_summary" := JObject {[ "high" := JBool true ]} ]})
            "status" _).
  apply list_elem_of_further, list_elem_of_here.
Defined.

(** ** The catalog and the data handler together *)

Section catalog.

Implicit Types (data : gmap string JSON) (r : Request).

Lemma requestKey_of_plain_key key q :
  strings.Contains key "%2F" = false →
  requestKey {| Path := "/api/data/" +:+ key; Query := q |} = key.
Proof.
  intros Hfree. unfold requestKey. cbn [Path].
  replace (strings.TrimPrefix ("/api/data/" +:+ key) "/api/data/") with key.
  - by apply dec_no_instance.
  - unfold strings.TrimPrefix.
    replace (strings.HasPrefix ("/api/data/" +:+ key) "/api/data/") with true
      by (symmetry; apply HasPrefix_spec; by exists key).
    reflexivity.
Qed.

Lemma JString_fmap_inj (l1 l2 : list string) :
  JString <$> l1 = JString <$> l2 → l1 = l2.
Proof.
  revert l2; induction l1 as [|x l1 IH]; intros [|y l2] Heq;
    simplify_eq/=; [done|]. f_equal. by apply IH.
Qed.

(** The keys listed, on a loaded document, as one filter over all keys. *)
Lemma getKeysHandler_loaded data r :
  data ≠ ∅ →
  getKeysHandler data r =
  Encoded (JArray (JString <$>
    filter (λ key, strings.Contains (strings.ToLower key)
                     (strings.ToLower (Get (Query r) "q")) = true)
           (map_to_list data).*1)).
Proof.
  intros Hne%notLoaded_false_iff. unfold getKeysHandler. rewrite Hne.
  destruct (String.eqb_spec (Get (Query r) "q") "") as [->|_]; [|done].
  cbn [negb]. do 3 f_equal. symmetry.
  induction ((map_to_list data).*1) as [|k l IH]; [done|].
  rewrite filter_cons_True by apply Contains_nil. by rewrite IH.
Qed.


Lemma getMapKeys_fold (l : list (string * JSON)) acc :
  foldl (λ keys (kv : string * JSON), keys ++ [kv.1]) acc l = acc ++ l.*1.
Proof.
  revert acc; induction l as [|kv l IH]; intros acc; cbn.
  - by rewrite app_nil_r.
  - by rewrite IH, <-app_assoc.
Qed.

End catalog.

(** X19. The catalog and the data handler agree: on any document, a key that
    [getKeysHandler] lists and that has no [%2F] in it is found by
    [getDataHandler] under the path ["/api/data/"] followed by the key as it
    is; the response is the projection of the value stored under that key,
    never a 404. *)
Theorem listed_key_is_served
    (data : gmap string JSON) (r : Request) (keys : list string)
    (key : string) (q : gmap string (list string)) :
  getKeysHandler data r = Encoded (JArray (JString <$> keys)) →
  key ∈ keys →
  strings.Contains key "%2F" = false →
  ∃ val, data !! key = Some val ∧
         getDataHandler data {| Path := "/api/data/" +:+ key; Query := q |}
         = project key val q.
Proof.
  intros Hkeys Hin Hfree.
  assert (data ≠ ∅) as Hne by (by intros ->).
  rewrite (getKeysHandler_loaded _ _ Hne) in Hkeys.
  injection Hkeys as Hkeys%JString_fmap_inj. subst keys.
  apply list_elem_of_filter in Hin as [_ Hin].
  apply list_elem_of_fmap in Hin as ([k val] & -> & Hin%elem_of_map_to_list).
  exists val. split; [done|].
  apply getDataHandler_found; [|done]. by apply requestKey_of_plain_key.
Qed.

Lemma listed_key_is_served_witness :
  ∃ val, scenarioData !! "/v1/host" = Some val ∧
         getDataHandler scenarioData
           {| Path := "/api/data/" +:+ "/v1/host"; Query := ∅ |}
         = project "/v1/host" val ∅.
Proof.
  apply (listed_key_is_served scenarioData
           {| Path := "/api/keys"; Query := {[ "q" := ["HOST"] ]} |}
           ["/v1/host"]).
  - vm_compute. reflexivity.
  - apply list_elem_of_here.
  - reflexivity.
Defined.



(** X21. [getMapKeys] returns every key of the map once: as many entries as
    the map has keys, no entry twice, and a string is among them exactly
    when the map has a value under it. *)
Theorem getMapKeys_lists_each_key_once (m : gmap string JSON) :
  length (getMapKeys m) = size m ∧
  NoDup (getMapKeys m) ∧
  ∀ k, k ∈ getMapKeys m ↔ is_Some (m !! k).
Proof.
  unfold getMapKeys. rewrite getMapKeys_fold, app_nil_l.
  split; [by rewrite length_fmap, length_map_to_list|].
  split; [apply NoDup_fst_map_to_list|].
  intros k. rewrite list_elem_of_fmap. split.
  - intros ([k' v] & -> & Hin%elem_of_map_to_list). by exists v.
  - intros [v Hv]. exists (k, v). by rewrite elem_of_map_to_list.
Qed.

(** X22. A root key that has [%2F] in it cannot be fetched: no path decodes
    to it. On a loaded document whose keys all have [%2F] in them, every
    request to [getDataHandler] is answered 404, though [getKeysHandler]
    lists those keys. *)
Theorem key_with_encoded_slash_is_unreachable
    (data : gmap string JSON) (r : Request) :
  data ≠ ∅ →
  (∀ key, is_Some (data !! key) → strings.Contains key "%2F" = true) →
  getDataHandler data r =
  Done (HttpError (errorBody ("Key '" +:+ requestKey r +:+ "' not found."))
                  404).
Proof.
  intros Hne Hall. rewrite getDataHandler_unfold.
  apply notLoaded_false_iff in Hne. rewrite Hne.
  destruct (data !! requestKey r) as [val|] eqn:Hk; [|done].
  assert (strings.Contains (requestKey r) "%2F" = true) as Hc
    by (apply Hall; by rewrite Hk).
  unfold requestKey in Hc. by rewrite decoded_no_instance in Hc.
Qed.

Lemma key_with_encoded_slash_is_unreachable_witness :
  getDataHandler {[ "a%2Fb" := JBool true ]}
    {| Path := "/api/data/a%2Fb"; Query := ∅ |}
  = Done (HttpError (errorBody "Key 'a/b' not found.") 404).
Proof.
  refine (key_with_encoded_slash_is_unreachable {[ "a%2Fb" := JBool true ]}
            {| Path := "/api/data/a%2Fb"; Query := ∅ |} _ _).
  - intros Hd. apply (f_equal (λ m : gmap string JSON, m !! "a%2Fb")) in Hd.
    vm_compute in Hd. discriminate.
  - intros key [val Hval].
    apply lookup_singleton_Some in Hval as [<- _]. reflexivity.
Defined.
